(** * The pwn write-up crawler ([crawler.py]): model and properties

    The program fetches one index page, extracts the rows of the write-up
    table and, for each row, resolves the URL of the "real" write-up by
    fetching the row's detail page, retrying with an exponential backoff
    when the site does not answer with status 200.

    The model follows the Python source function by function.  The HTTP
    transport, the HTML parser and the random generator are outside of the
    program: the answers of the network and the random draws are inputs of
    the model, the parser and the power function of the C library are
    parameters, and the XPath queries the program issues are evaluated on an
    explicit document tree.  Floating-point values are binary64 numbers. *)

From Stdlib Require Import ZArith Floats.
From stdpp Require Import gmap strings list pretty.

Set Warnings "-register-all".

Local Open Scope string_scope.
Local Open Scope list_scope.

(** ** Module constants *)

(** [PARALLEL_REQ = 7]: connections in parallel to the website. *)
Definition PARALLEL_REQ : nat := 7.

(** [MAX_RETRIES = 15]: max retries for a piece of information. *)
Definition MAX_RETRIES : nat := 15.

Definition BASE_URL : string := "https://ctftime.org".

(** ** Python values and exceptions *)

(** A Python value that is a [str] or [None] (what [Element.get] returns). *)
Definition pystr : Type := option string.

(** [RowInformation = namedtuple('RowInformation', ['ctf', 'challenge', 'link'])].
    The [link] field holds whatever [get_writeup_url] returned. *)
Record RowInformation : Type := mkRowInformation {
  ctf : string;
  challenge : string;
  link : pystr;
}.

(** The exceptions that can travel through the program.  Only
    [CouldNotFetchInformation] is declared by the program itself; the others
    are raised by the interpreter or by the libraries. *)
Inductive exn : Type :=
| CouldNotFetchInformation (msg : string)
| IndexError
| TypeError
| NameError (name : string)
| ParserError
| RequestException (msg : string).

Inductive result (A : Type) : Type :=
| Ok (a : A)
| Err (e : exn).
Arguments Ok {A} a.
Arguments Err {A} e.

(** ** Document trees and the XPath queries of the program *)

(** The XPath data model restricted to what the queries look at: text nodes
    and elements with a tag, an attribute dictionary and children in document
    order. *)
Inductive node : Type :=
| Text (s : string)
| Element (tag : string) (attrib : gmap string string) (children : list node).

Definition children_of (n : node) : list node :=
  match n with
  | Text _ => []
  | Element _ _ cs => cs
  end.

(** [el.get(key)]: the attribute, or [None] when the element has none. *)
Definition get (n : node) (key : string) : pystr :=
  match n with
  | Text _ => None
  | Element _ a _ => a !! key
  end.

(** Name test [t]: an element whose tag is [t]. *)
Definition is_tag (t : string) (n : node) : bool :=
  match n with
  | Text _ => false
  | Element t' _ _ => bool_decide (t' = t)
  end.

(** Predicate [[@id='v']]. *)
Definition has_id (v : string) (n : node) : bool :=
  bool_decide (get n "id" = Some v).

(** Node test [text()] applied to the children of [n]. *)
Definition text_children (n : node) : list string :=
  flat_map (fun c => match c with Text s => [s] | Element _ _ _ => [] end)
           (children_of n).

(** Predicate [[text()='v']]: some text child has the string value [v]. *)
Definition has_text (v : string) (n : node) : bool :=
  existsb (fun s => bool_decide (s = v)) (text_children n).

(** Step [child::t] from one context node. *)
Definition child_elements (t : string) (n : node) : list node :=
  List.filter (is_tag t) (children_of n).

(** [//A/B/C] for node tests [A], [B], [C]: the nodes satisfying [C] whose
    parent satisfies [B] and whose grandparent satisfies [A], anywhere in the
    document, in document order.  The traversal carries whether the parent
    is an [A] ([pa]) and whether the parent is a [B] under an [A] ([pb]). *)
Fixpoint select3_from (A B C : node -> bool) (pa pb : bool) (n : node) : list node :=
  (if pb && C n then [n] else []) ++
  match n with
  | Text _ => []
  | Element _ _ cs => flat_map (select3_from A B C (A n) (pa && B n)) cs
  end.

Definition select3 (A B C : node -> bool) (root : node) : list node :=
  select3_from A B C false false root.

(** The nodes [//A/B/C] that hang under a given [A]: the children satisfying
    [C] of its children satisfying [B]. *)
Definition grandchildren (B C : node -> bool) (d : node) : list node :=
  flat_map (fun p => List.filter C (children_of p)) (List.filter B (children_of d)).

(** [//A]: the nodes satisfying [A] anywhere in the document, in document
    order. *)
Fixpoint select1 (A : node -> bool) (n : node) : list node :=
  (if A n then [n] else []) ++
  match n with
  | Text _ => []
  | Element _ _ cs => flat_map (select1 A) cs
  end.

(** Axis [descendant-or-self::node()]. *)
Definition descendants_or_self (n : node) : list node := select1 (fun _ => true) n.

(** [tree.xpath("//table[@id='writeups_table']/tbody/tr")] *)
Definition xpath_rows (tree : node) : list node :=
  select3 (fun n => is_tag "table" n && has_id "writeups_table" n)
          (is_tag "tbody") (is_tag "tr") tree.

(** Step [div[@id='id_description']]: the description container. *)
Definition is_description_container (n : node) : bool :=
  is_tag "div" n && has_id "id_description" n.

(** [tree.xpath("//div[@id='id_description']/p/a")] *)
Definition xpath_description (tree : node) : list node :=
  select3 is_description_container (is_tag "p") (is_tag "a") tree.

(** [tree.xpath("//a[text()='Original writeup']")] *)
Definition xpath_original_writeup (tree : node) : list node :=
  select1 (fun n => is_tag "a" n && has_text "Original writeup" n) tree.

(** [row.xpath("td[k]/a")]: the [a] children of the [k]-th [td] child
    (positions count from 1). *)
Definition xpath_td_a (k : nat) (row : node) : list node :=
  match k with
  | 0 => []
  | S j => match child_elements "td" row !! j with
           | Some td => child_elements "a" td
           | None => []
           end
  end.

(** [row.xpath("td[k]/a/text()")] *)
Definition xpath_td_a_text (k : nat) (row : node) : list string :=
  flat_map text_children (xpath_td_a k row).

(** ** Effects: the trace of a computation and its outcome *)

(** What a run does to the outside world.  Calls to [logging.debug] are left
    out: [configure_logger] sets the root logger and its handler to [INFO],
    so these records are discarded. *)
Inductive event : Type :=
| Get (url : string)                       (* requests.get(url, headers=HEADERS) *)
| Sleep (seconds : float)                  (* time.sleep(seconds) *)
| LogInfo (msg : string)                   (* logging.info(msg) *)
| LogException (msg : string) (e : exn)    (* logging.exception(msg), handling e *)
| Print (s : string)                       (* print(s) *)
| PPrint (info : list RowInformation).     (* pprint(info) *)

Definition trace : Type := list event.

(** A computation: its outcome (a value or the exception that left it) and
    the events it performed up to there. *)
Definition M (A : Type) : Type := (result A * trace)%type.

Definition ret {A} (a : A) : M A := (Ok a, []).
Definition raise {A} (e : exn) : M A := (Err e, []).
Definition emit (ev : event) : M unit := (Ok tt, [ev]).
Definition lift {A} (r : result A) : M A := (r, []).

Definition bind {A B} (c : M A) (k : A -> M B) : M B :=
  match c with
  | (Ok a, t) => let '(r, t') := k a in (r, t ++ t')
  | (Err e, t) => (Err e, t)
  end.

Notation "x <- c ;; k" := (bind c (fun x => k))
  (at level 100, c at next level, right associativity).
Notation "c ;;; k" := (bind c (fun _ => k))
  (at level 100, right associativity).

(** [try: body / except CouldNotFetchInformation: handler].  Any other
    exception goes through. *)
Definition try_except {A} (body : M A) (handler : M A) : M A :=
  match body with
  | (Err (CouldNotFetchInformation _), t) => let '(r, t') := handler in (r, t ++ t')
  | other => other
  end.

(** [l[0]] *)
Definition index0 {A} (l : list A) : M A :=
  match l with
  | x :: _ => ret x
  | [] => raise IndexError
  end.

(** [a + b] for a [str] [a]: concatenation, [TypeError] when [b] is [None]. *)
Definition str_add (a : string) (b : pystr) : M string :=
  match b with
  | Some s => ret (a +:+ s)
  | None => raise TypeError
  end.

(** [s * n] for a [str] [s]. *)
Fixpoint str_mul (s : string) (n : nat) : string :=
  match n with
  | 0 => ""
  | S n' => s +:+ str_mul s n'
  end.

(** ** The network *)

(** The outcome of one [requests.get]: a response with its status code and
    its body (the bytes of [response.content], as a string of 8-bit
    characters), or an exception of the transport (unreachable host,
    timeout). *)
Inductive reply : Type :=
| Response (status_code : Z) (content : string)
| Unreachable (msg : string).

(** [requests.get(url, headers=HEADERS)] when the network answers [http url]. *)
Definition requests_get (http : string -> reply) (url : string) : M (Z * string) :=
  emit (Get url) ;;;
  match http url with
  | Response status body => ret (status, body)
  | Unreachable msg => raise (RequestException msg)
  end.

(** ** [assert_status_200] *)

Definition assert_status_200 (status : Z) : M unit :=
  if bool_decide (status ≠ 200%Z)
  then raise (CouldNotFetchInformation
                ("Excpected status_code = 200, got " +:+ pretty status))
  else ret tt.

(** ** The backoff delay *)

(** [float(i)] for the loop index [i]. *)
Definition float_of_nat (i : nat) : float :=
  PrimFloat.of_uint63 (Uint63.of_Z (Z.of_nat i)).

(** [(2 ** (i + random.random())) / 1000], where [u] is the float drawn by
    [random.random()].  The sum and the quotient are the binary64
    operations; [float_pow x y] is [x ** y] on floats, which Python hands to
    the [pow] of the C library. *)
Definition wait_time (float_pow : float -> float -> float) (i : nat) (u : float) : float :=
  (float_pow 2 (float_of_nat i + u) / 1000)%float.

(** ** The worker pool *)

(** [ThreadPool.map] cuts the iterable into chunks and hands each chunk to a
    worker, which applies the function to the items of the chunk one after
    the other; an exception ends the chunk.  [map] returns the values in the
    order of the iterable when every chunk succeeded, and otherwise raises
    the exception of the failed chunk that completed first. *)

(** [chunksize, extra = divmod(len(iterable), len(pool) * 4)], plus one when
    [extra] is not zero. *)
Definition chunksize (n : nat) : nat :=
  let q := n / (PARALLEL_REQ * 4) in
  if (n mod (PARALLEL_REQ * 4) =? 0)%nat then q else S q.

(** The successive slices of [size] items, until the iterable is used up. *)
Fixpoint get_tasks {A} (fuel size : nat) (l : list A) : list (list A) :=
  match fuel, l with
  | S fuel', _ :: _ => take size l :: get_tasks fuel' size (drop size l)
  | _, _ => []
  end.

(** One chunk on one worker: [list(map(func, chunk))]. *)
Fixpoint mapstar {A B} (f : A -> result B) (chunk : list A) : result (list B) :=
  match chunk with
  | [] => Ok []
  | x :: chunk' =>
      match f x with
      | Err e => Err e
      | Ok b => match mapstar f chunk' with
                | Err e => Err e
                | Ok bs => Ok (b :: bs)
                end
      end
  end.

Definition failure_at {B} (outs : list (result B)) (j : nat) : option exn :=
  match outs !! j with
  | Some (Err e) => Some e
  | _ => None
  end.

Definition value_of {B} (o : result B) : option B :=
  match o with
  | Ok b => Some b
  | Err _ => None
  end.

(** [completion] is the order in which the chunks complete, as indices into
    the list of chunks; chunks it does not list complete afterwards, in the
    order of submission.  [f] receives the position of the item in the
    iterable with the item. *)
Definition pool_map {A B} (completion : list nat) (f : nat -> A -> result B)
    (iterable : list A) : result (list B) :=
  let n := length iterable in
  let tasks := get_tasks n (chunksize n) (imap pair iterable) in
  let outs := map (mapstar (fun ix => f ix.1 ix.2)) tasks in
  match head (omap (failure_at outs) (completion ++ seq 0 (length outs))) with
  | Some e => Err e
  | None => Ok (concat (omap value_of outs))
  end.

(** ** The environment of a run *)

(** Everything a run receives from outside: the answer of the network to the
    request for the index page, the answer to the [i]-th request made for the
    row at position [r] ([detail_http r i]), the value of the [i]-th call of
    [random.random()] made for that row ([jitter r i]), and the order in
    which the chunks of the pool complete. *)
Record env : Type := mkEnv {
  index_http : string -> reply;
  detail_http : nat -> nat -> string -> reply;
  jitter : nat -> nat -> float;
  completion : list nat;
}.

Section Crawler.

(** [lxml.html.fromstring]: the root element of the parsed document, from
    which the absolute paths are evaluated; [None] when the parser raises. *)
Variable fromstring : string -> option node.

(** [x ** y] on floats. *)
Variable float_pow : float -> float -> float.

Definition parse (body : string) : M node :=
  match fromstring body with
  | Some tree => ret tree
  | None => raise ParserError
  end.

(** ** [get_writeup_url] *)

Definition get_writeup_url (http : string -> reply) (url : string) : M pystr :=
  response <- requests_get http url ;;
  assert_status_200 response.1 ;;;
  tree <- parse response.2 ;;
  (* Try to get a URL in the description. *)
  match xpath_description tree with
  | a :: _ => ret (get a "href")
  | [] =>
      (* Otherwise use the original writeup URL. *)
      match xpath_original_writeup tree with
      | a :: _ => ret (get a "href")
      | [] => ret (Some url)
      end
  end.

(** ** [extract_info] *)

Definition could_not_fetch_message (ctf challenge : string) : string :=
  "Could not fetch write-up URL (" +:+ ctf +:+ " - " +:+ challenge +:+
  ") information after " +:+ pretty MAX_RETRIES +:+ " retries.".

(** The [for i in range(MAX_RETRIES)] loop over the remaining [indices],
    followed by the [raise] that ends the function.  [http i] answers the
    request of iteration [i] and [rnd i] is its random draw. *)
Fixpoint retry_loop (http : nat -> string -> reply) (rnd : nat -> float)
    (ctf challenge : string) (link : pystr) (indices : list nat) : M RowInformation :=
  match indices with
  | [] => raise (CouldNotFetchInformation (could_not_fetch_message ctf challenge))
  | i :: rest =>
      try_except
        (target <- str_add BASE_URL link ;;
         url <- get_writeup_url (http i) target ;;
         ret (mkRowInformation ctf challenge url))
        (emit (Sleep (wait_time float_pow i (rnd i))) ;;;
         retry_loop http rnd ctf challenge link rest)
  end.

Definition extract_info (http : nat -> string -> reply) (rnd : nat -> float)
    (row : node) : M RowInformation :=
  ctf <- index0 (xpath_td_a_text 1 row) ;;
  challenge <- index0 (xpath_td_a_text 2 row) ;;
  a <- index0 (xpath_td_a 5 row) ;;
  let link := get a "href" in
  retry_loop http rnd ctf challenge link (seq 0 MAX_RETRIES).

(** ** [get_all_writetups] *)

Definition INDEX_URL : string := BASE_URL +:+ "/writeups?tags=pwn&hidden-tags=pwn".

(** The task the pool runs for the row at position [r]: [extract_info] on
    that row, with the answers and the draws the environment has for it.
    [pool.map] only passes the outcome on; the events of the task stay on the
    worker's side. *)
Definition resolve (e : env) (r : nat) (row : node) : result RowInformation :=
  (extract_info (detail_http e r) (jitter e r) row).1.

(** The trace is the one of the calling thread. *)
Definition get_all_writetups (e : env) : M (list RowInformation) :=
  response <- requests_get (index_http e) INDEX_URL ;;
  assert_status_200 response.1 ;;;
  tree <- parse response.2 ;;
  let rows := xpath_rows tree in
  emit (LogInfo "Fetched the write-ups list.") ;;;
  info <- lift (pool_map (completion e) (resolve e) rows) ;;
  emit (LogInfo "Retrieved the information for each challenge.") ;;;
  ret info.

(** ** The script *)

(** Evaluation of the global name [info]: [None] is the unbound name. *)
Definition load_info (binding : option (list RowInformation)) : M (list RowInformation) :=
  match binding with
  | Some v => ret v
  | None => raise (NameError "info")
  end.

(** The body under [if __name__ == '__main__':].  The [try] statement binds
    [info] when the call returns; the handler only logs.  The outcome [Err e]
    is the exception that terminates the script. *)
Definition main (e : env) : M unit :=
  binding <- match get_all_writetups e with
             | (Ok info, t) => (Ok (Some info), t)
             | (Err (CouldNotFetchInformation msg), t) =>
                 (Ok None,
                  t ++ [LogException "Could not fetch the write-ups."
                          (CouldNotFetchInformation msg)])
             | (Err other, t) => (Err other, t)
             end ;;
  emit (Print (str_mul "=" 100)) ;;;
  info <- load_info binding ;;
  emit (PPrint info).

(** The index page is answered with status 200 and parses to [tree]. *)
Definition index_served (e : env) (tree : node) : Prop :=
  exists body, index_http e INDEX_URL = Response 200 body /\ fromstring body = Some tree.

End Crawler.

(** ** The decision rule as the specification words it *)

(** The inline link of the specification: the first anchor in the first
    paragraph of the description container, the first [div] of the document
    whose id is [id_description]. *)
Definition spec_inline_anchor (tree : node) : option node :=
  match head (select1 is_description_container tree) with
  | Some container =>
      match head (child_elements "p" container) with
      | Some paragraph => head (child_elements "a" paragraph)
      | None => None
      end
  | None => None
  end.

(** The resolved URL the specification's rule gives for a fetched page:
    the inline link when present, else the fallback link when present, else
    the URL of the detail page. *)
Definition spec_resolved_url (tree : node) (url : string) : pystr :=
  match spec_inline_anchor tree with
  | Some a => get a "href"
  | None =>
      match head (xpath_original_writeup tree) with
      | Some a => get a "href"
      | None => Some url
      end
  end.

(** The anchor the program picks on a fetched page, when it picks one. *)
Definition chosen_anchor (tree : node) : option node :=
  match xpath_description tree with
  | a :: _ => Some a
  | [] => head (xpath_original_writeup tree)
  end.

(** Number of requests and of sleeps in a trace. *)
Definition is_get (ev : event) : bool :=
  match ev with Get _ => true | _ => false end.
Definition is_sleep (ev : event) : bool :=
  match ev with Sleep _ => true | _ => false end.
Definition count_gets (t : trace) : nat := length (List.filter is_get t).
Definition count_sleeps (t : trace) : nat := length (List.filter is_sleep t).

(** ** Vocabulary of the statements *)

(** The three values [extract_info] reads from a row: the text of the anchor
    of column 1, the text of the anchor of column 2 and the [href] of the
    anchor of column 5. *)
Definition row_fields (row : node) (c ch l : string) : Prop :=
  head (xpath_td_a_text 1 row) = Some c /\
  head (xpath_td_a_text 2 row) = Some ch /\
  exists a, head (xpath_td_a 5 row) = Some a /\ get a "href" = Some l.

(** What one iteration that meets a status other than 200 performs. *)
Definition failed_attempt (float_pow : float -> float -> float) (rnd : nat -> float)
    (target : string) (i : nat) : trace :=
  [Get target; Sleep (wait_time float_pow i (rnd i))].

(** The network answers every request of [indices] for [target] with a
    status other than 200. *)
Definition all_transient (http : nat -> string -> reply) (target : string)
    (indices : list nat) : Prop :=
  forall i, i ∈ indices ->
    exists status body, http i target = Response status body /\ status ≠ 200%Z.

(** ** Fixtures *)

Module Fixtures.

Definition anchor (href text : string) : node :=
  Element "a" {[ "href" := href ]} [Text text].

Definition td (cs : list node) : node := Element "td" ∅ cs.

(** A row of the write-up table: event, task, tags, author team, action.
    [<tr><td><a href="/event/1">ctf</a></td><td><a href="/task/1">challenge</a></td>
         <td></td><td><a href="/team/1">team</a></td>
         <td><a href="detail">Read more</a></td></tr>] *)
Definition index_row (ctf challenge detail : string) : node :=
  Element "tr" ∅
    [td [anchor "/event/1" ctf]; td [anchor "/task/1" challenge]; td [];
     td [anchor "/team/1" "team"]; td [anchor detail "Read more"]].

Definition index_page (rows : list node) : node :=
  Element "html" ∅
    [Element "body" ∅
       [Element "table" {[ "id" := "writeups_table" ]}
          [Element "thead" ∅ []; Element "tbody" ∅ rows]]].

Definition rowA : node := index_row "CTF1" "pwn200" "/writeup/1".
Definition rowB : node := index_row "CTF2" "pwn300" "/writeup/2".

Definition description (paragraphs : list node) : node :=
  Element "div" {[ "id" := "id_description" ]} paragraphs.

Definition detail_page (body : list node) : node :=
  Element "html" ∅ [Element "body" ∅ body].

Definition inline_anchor : node := anchor "https://github.com/a/a" "here".

(** Detail page 1: a link in the description.
    [<div id="id_description"><p>See <a href="https://github.com/a/a">here</a></p></div>
     <a href="https://blog.example/a">Original writeup</a>] *)
Definition detail1 : node :=
  detail_page
    [description [Element "p" ∅ [Text "See "; inline_anchor]];
     anchor "https://blog.example/a" "Original writeup"].

(** Detail page 2: no link in the description, an original write-up link.
    [<div id="id_description"><p>No link.</p></div>
     <a href="https://blog.example/b">Original writeup</a>] *)
Definition detail2 : node :=
  detail_page
    [description [Element "p" ∅ [Text "No link."]];
     anchor "https://blog.example/b" "Original writeup"].

(** A detail page with neither link.
    [<div id="id_description"><p>Nothing.</p></div>] *)
Definition detail_plain : node :=
  detail_page [description [Element "p" ∅ [Text "Nothing."]]].

(** The first paragraph of the description has no anchor, the second one
    has.
    [<div id="id_description"><p>Intro.</p>
       <p><a href="https://github.com/c/c">repo</a></p></div>
     <a href="https://blog.example/c">Original writeup</a>] *)
Definition detail_late : node :=
  detail_page
    [description
       [Element "p" ∅ [Text "Intro."];
        Element "p" ∅ [anchor "https://github.com/c/c" "repo"]];
     anchor "https://blog.example/c" "Original writeup"].

(** The anchor of the description has an empty [href].
    [<div id="id_description"><p><a href>top</a></p></div>], the attribute
    being present with the empty string as its value. *)
Definition detail_empty_href : node :=
  detail_page [description [Element "p" ∅ [anchor "" "top"]]].

(** The anchor of the description has no [href] at all.
    [<div id="id_description"><p><a name="top"></a></p></div>] *)
Definition detail_no_href : node :=
  detail_page
    [description [Element "p" ∅ [Element "a" {[ "name" := "top" ]} []]]].

(** A row whose second column has no anchor. *)
Definition row_drifted : node :=
  Element "tr" ∅
    [td [anchor "/event/1" "CTF1"]; td [Text "pwn200"]; td [];
     td [anchor "/team/1" "team"]; td [anchor "/writeup/1" "Read more"]].

(** A parser for the bodies the fixtures serve. *)
Definition fromstring (body : string) : option node :=
  if bool_decide (body = "INDEX") then Some (index_page [rowA; rowB])
  else if bool_decide (body = "DETAIL1") then Some detail1
  else if bool_decide (body = "DETAIL2") then Some detail2
  else if bool_decide (body = "PLAIN") then Some detail_plain
  else if bool_decide (body = "LATE") then Some detail_late
  else if bool_decide (body = "EMPTYHREF") then Some detail_empty_href
  else if bool_decide (body = "NOHREF") then Some detail_no_href
  else None.

(** A site that serves the same body at every URL. *)
Definition serve (body : string) : string -> reply :=
  fun _ => Response 200 body.

(** A site that answers every request with 503. *)
Definition unavailable : string -> reply :=
  fun _ => Response 503 "".

(** The site of the end-to-end example. *)
Definition site (url : string) : reply :=
  if bool_decide (url = INDEX_URL) then Response 200 "INDEX"
  else if bool_decide (url = "https://ctftime.org/writeup/1") then Response 200 "DETAIL1"
  else if bool_decide (url = "https://ctftime.org/writeup/2") then Response 200 "DETAIL2"
  else Response 404 "".

Definition no_jitter : nat -> float := fun _ => 0%float.

(** A power function for the runs of the fixtures: [2 ** n] for the
    integers [n] from 0 to 16, as [1 * 2^n], and not a number for any other
    exponent; the statements about these runs only look at delays whose
    exponent is an integer. *)
Definition float_pow (x y : float) : float :=
  match List.find (fun n => (float_of_nat n =? y)%float) (seq 0 17) with
  | Some n => Z.ldexp 1 (Z.of_nat n)
  | None => nan
  end.

(** A site whose requests all fail in the transport. *)
Definition unreachable : string -> reply :=
  fun _ => Unreachable "timed out".

Definition detail_url1 : string := "https://ctftime.org/writeup/1".

(** The messages of the terminal failure of row A and of row B. *)
Definition gave_up_A : string :=
  "Could not fetch write-up URL (CTF1 - pwn200) information after 15 retries.".
Definition gave_up_B : string :=
  "Could not fetch write-up URL (CTF2 - pwn300) information after 15 retries.".

(** Every request is answered by [site]. *)
Definition env_ok : env :=
  mkEnv site (fun _ _ => site) (fun _ => no_jitter) [].

(** The index is served, the detail page of the first row never is. *)
Definition env_row0_down : env :=
  mkEnv site (fun r _ => if bool_decide (r = 0) then unavailable else site)
        (fun _ => no_jitter) [].

(** The index is served, the detail page of the second row never is. *)
Definition env_row1_down : env :=
  mkEnv site (fun r _ => if bool_decide (r = 1) then unavailable else site)
        (fun _ => no_jitter) [].

(** No detail page is ever served, and the chunk of the second row is the
    first to complete. *)
Definition env_details_down : env :=
  mkEnv site (fun _ _ => unavailable) (fun _ => no_jitter) [1; 0].

(** The index page itself is not served. *)
Definition env_index_down : env :=
  mkEnv unavailable (fun _ _ => site) (fun _ => no_jitter) [].

End Fixtures.

(** ** Further vocabulary *)

(** Step [table[@id='writeups_table']]: the write-up table. *)
Definition is_writeups_table (n : node) : bool :=
  is_tag "table" n && has_id "writeups_table" n.

(** The largest float below 1, [1 - 2^-53]: what [random.random()] returns
    when the 53 random bits it draws are all set. *)
Definition largest_draw : float := next_down 1.

(** The trace of a run of the retry loop that went through [k] failed
    iterations and then, when [requested] holds, made one more request. *)
Definition retry_trace (float_pow : float -> float -> float) (rnd : nat -> float)
    (target : string) (k : nat) (requested : bool) : trace :=
  flat_map (failed_attempt float_pow rnd target) (seq 0 k) ++
  (if requested then [Get target] else []).

(** ** Scenarios *)

Module Scenarios.

Import Fixtures.

(** The first [k] requests are answered with 503, the later ones by the
    site of the end-to-end example. *)
Definition flaky (k : nat) : nat -> string -> reply :=
  fun i => if (i <? k)%nat then unavailable else site.

(** The first [k] requests are answered with 503, the later ones fail in
    the transport. *)
Definition cut_off (k : nat) : nat -> string -> reply :=
  fun i => if (i <? k)%nat then unavailable else fun _ => Unreachable "timed out".

(** A row with three cells only. *)
Definition row_short : node :=
  Element "tr" ∅
    [td [anchor "/event/1" "CTF1"]; td [anchor "/task/1" "pwn200"]; td []].

(** The anchor of column 5 has no [href]:
    [<td><a name="more">Read more</a></td>]. *)
Definition anchor_without_href : node :=
  Element "a" {[ "name" := "more" ]} [Text "Read more"].

Definition row_without_href : node :=
  Element "tr" ∅
    [td [anchor "/event/1" "CTF1"]; td [anchor "/task/1" "pwn200"]; td [];
     td [anchor "/team/1" "team"]; td [anchor_without_href]].

(** An index page whose table has another id. *)
Definition page_without_table : node :=
  Element "html" ∅
    [Element "body" ∅
       [Element "table" {[ "id" := "events_table" ]}
          [Element "tbody" ∅ [rowA]]]].

(** The parser of the fixtures, with two more bodies. *)
Definition fromstring (body : string) : option node :=
  if bool_decide (body = "NOTABLE") then Some page_without_table
  else if bool_decide (body = "DRIFT") then Some (index_page [rowA; row_drifted])
  else Fixtures.fromstring body.

(** The index page holds no write-up table. *)
Definition env_no_table : env :=
  mkEnv (serve "NOTABLE") (fun _ _ => site) (fun _ => no_jitter) [].

(** The second row of the index page has no anchor in its second column. *)
Definition env_drift : env :=
  mkEnv (serve "DRIFT") (fun _ _ => site) (fun _ => no_jitter) [].

(** The request for the index page fails in the transport. *)
Definition env_index_unreachable : env :=
  mkEnv (fun _ => Unreachable "timed out") (fun _ _ => site) (fun _ => no_jitter) [].

End Scenarios.

(** * Properties *)

(** ** The XPath queries *)

Section XPath.

Variables A B C : node -> bool.

(** Induction on document trees, with the property for every child. *)
Lemma node_children_ind (P : node -> Prop) :
  (forall s, P (Text s)) ->
  (forall t a cs, Forall P cs -> P (Element t a cs)) ->
  forall n, P n.
Proof.
  intros HText HElement. fix IH 1. intros [s|t a cs]; [apply HText|].
  apply HElement. induction cs as [|c cs IHcs]; constructor; [apply IH|exact IHcs].
Qed.

Lemma flat_map_nil_inv {X Y} (f : X -> list Y) (l : list X) :
  flat_map f l = [] -> Forall (fun x => f x = []) l.
Proof.
  induction l as [|x l IH]; cbn; [constructor|].
  intros [Hx Hl]%app_eq_nil. constructor; [done|by apply IH].
Qed.

(** In a subtree without any [A], the traversal only finds what the
    ancestors above the subtree allow. *)
Lemma select3_from_without_A (n : node) :
  forall pa pb, select1 A n = [] ->
  select3_from A B C pa pb n =
  (if pb && C n then [n] else []) ++
  (if pa && B n then List.filter C (children_of n) else []).
Proof.
  induction n as [s|t a cs IH] using node_children_ind; intros pa pb Hnone.
  - cbn. by destruct (pa && B (Text s)).
  - cbn [select1] in Hnone. apply app_eq_nil in Hnone as [HA Hcs].
    destruct (A (Element t a cs)) eqn:HAn; [discriminate|].
    apply flat_map_nil_inv in Hcs.
    cbn [select3_from children_of]. rewrite HAn. f_equal.
    generalize (pa && B (Element t a cs)). intros b. clear HAn HA.
    induction cs as [|c cs IHcs]; [by destruct b|].
    apply Forall_cons in IH as [IHc IH]. apply Forall_cons in Hcs as [Hc Hcs].
    cbn [flat_map]. rewrite (IHc false b Hc), (IHcs IH Hcs).
    cbn. rewrite app_nil_r. by destruct b, (C c).
Qed.

(** When the document holds a single [A], the query returns the nodes under
    it, paragraph after paragraph. *)
Lemma select3_single_A (root d : node) :
  select1 A root = [d] -> select3 A B C root = grandchildren B C d.
Proof.
  unfold select3.
  induction root as [s|t a cs IH] using node_children_ind; intros Hone.
  - cbn in Hone. destruct (A (Text s)); [|discriminate].
    injection Hone as <-. reflexivity.
  - cbn [select1] in Hone. cbn [select3_from]. cbn [andb app].
    destruct (A (Element t a cs)) eqn:HAn.
    + injection Hone as <- Hcs. apply flat_map_nil_inv in Hcs.
      unfold grandchildren. cbn [children_of]. clear IH HAn.
      induction cs as [|c cs IHcs]; [reflexivity|].
      apply Forall_cons in Hcs as [Hc Hcs].
      cbn [flat_map List.filter]. rewrite (select3_from_without_A c true false Hc).
      rewrite (IHcs Hcs). cbn. by destruct (B c).
    + cbn in Hone. clear HAn.
      induction cs as [|c cs IHcs]; [discriminate|].
      apply Forall_cons in IH as [IHc IH]. cbn [flat_map] in *.
      destruct (select1 A c) as [|d' ds] eqn:Hc.
      * rewrite (select3_from_without_A c false false Hc). cbn. by apply IHcs.
      * injection Hone as -> Hrest. apply app_eq_nil in Hrest as [-> Hrest].
        rewrite (IHc eq_refl). apply flat_map_nil_inv in Hrest.
        assert (flat_map (select3_from A B C false false) cs = []) as ->;
          [|by rewrite app_nil_r].
        clear -Hrest. induction Hrest as [|c' cs' Hc' _ IH']; [reflexivity|].
        cbn. rewrite (select3_from_without_A c' false false Hc'), IH'. reflexivity.
Qed.

Lemma elem_of_flat_map {X Y} (f : X -> list Y) (l : list X) (y : Y) :
  y ∈ flat_map f l <-> exists x, x ∈ l /\ y ∈ f x.
Proof.
  rewrite list_elem_of_In, in_flat_map. split; intros (x & Hx & Hy); exists x.
  - by rewrite !list_elem_of_In.
  - by rewrite <- !list_elem_of_In.
Qed.

Lemma descendants_or_self_refl (n : node) : n ∈ descendants_or_self n.
Proof. destruct n; cbn; left. Qed.

Lemma descendants_or_self_child (t : string) (a : gmap string string)
    (cs : list node) (c g : node) :
  c ∈ cs -> g ∈ descendants_or_self c -> g ∈ descendants_or_self (Element t a cs).
Proof.
  intros Hc Hg. cbn. right. apply elem_of_flat_map. by exists c.
Qed.

(** What the traversal collects: the node itself and its children when the
    nodes above allow it, and the nodes that hang under an [A] of the
    subtree. *)
Lemma elem_of_select3_from (x : node) :
  forall pa pb n,
  n ∈ select3_from A B C pa pb x <->
  (pb = true /\ C x = true /\ n = x) \/
  (pa = true /\ B x = true /\ n ∈ children_of x /\ C n = true) \/
  (exists g p, g ∈ descendants_or_self x /\ A g = true /\
     p ∈ children_of g /\ B p = true /\ n ∈ children_of p /\ C n = true).
Proof.
  induction x as [s|t a cs IH] using node_children_ind; intros pa pb n.
  - cbn. rewrite app_nil_r. split.
    + destruct pb, (C (Text s)); cbn;
        intros Hn; try (by apply elem_of_nil in Hn).
      apply list_elem_of_singleton in Hn. by left.
    + intros [(-> & -> & ->)|[(_ & _ & Hn & _)|(g & p & Hg & _ & Hp & _)]].
      * cbn. left.
      * by apply elem_of_nil in Hn.
      * apply list_elem_of_singleton in Hg as ->. by apply elem_of_nil in Hp.
  - cbn [select3_from children_of]. rewrite elem_of_app, elem_of_flat_map. split.
    + intros [Hself|(c & Hc & Hn)].
      * left. destruct pb, (C (Element t a cs)); cbn in Hself;
          try (by apply elem_of_nil in Hself).
        apply list_elem_of_singleton in Hself. done.
      * right. eapply Forall_forall in IH; [|exact Hc].
        apply IH in Hn
          as [(Hpb & HC & ->)|[(HA & HB & Hn & HC)|(g & p & Hg & HA & Hp & HB & Hn & HC)]].
        -- left. apply andb_true_iff in Hpb as [-> ->]. done.
        -- right. exists (Element t a cs), c.
           split_and!; try done. apply descendants_or_self_refl.
        -- right. exists g, p. split_and!; try done.
           by eapply descendants_or_self_child.
    + intros [(-> & HC & ->)|[(-> & HB & Hn & HC)|(g & p & Hg & HA & Hp & HB & Hn & HC)]].
      * left. rewrite HC. cbn. left.
      * right. exists n. split; [done|].
        eapply Forall_forall in IH; [|exact Hn]. apply IH. left. by rewrite HB.
      * right. cbn in Hg. apply elem_of_cons in Hg as [->|Hg].
        -- exists p. split; [done|].
           eapply Forall_forall in IH; [|exact Hp]. apply IH. right; left. done.
        -- apply elem_of_flat_map in Hg as (c & Hc & Hg). exists c. split; [done|].
           eapply Forall_forall in IH; [|exact Hc]. apply IH. right; right.
           by exists g, p.
Qed.

(** [//A/B/C] selects exactly the nodes satisfying [C] that are children of
    a node satisfying [B] that is a child of a node of the document
    satisfying [A]. *)
Lemma elem_of_select3 (root n : node) :
  n ∈ select3 A B C root <->
  exists g p, g ∈ descendants_or_self root /\ A g = true /\
    p ∈ children_of g /\ B p = true /\ n ∈ children_of p /\ C n = true.
Proof.
  unfold select3. rewrite elem_of_select3_from. split.
  - intros [(? & _)|[(? & _)|H]]; [discriminate..|exact H].
  - intros H. right; right. exact H.
Qed.

End XPath.

(** With a single description container in the document, the first anchor
    of the first paragraph of the container, when that paragraph has one, is
    the first node of [//div[@id='id_description']/p/a]. *)
Lemma xpath_description_first_paragraph (tree d a : node) :
  select1 is_description_container tree = [d] ->
  spec_inline_anchor tree = Some a ->
  head (xpath_description tree) = Some a.
Proof.
  intros Hone. unfold spec_inline_anchor, xpath_description.
  rewrite (select3_single_A _ _ _ _ _ Hone), Hone. cbn [head].
  unfold grandchildren, child_elements.
  destruct (List.filter (is_tag "p") (children_of d)) as [|p ps]; [discriminate|].
  cbn [head flat_map].
  destruct (List.filter (is_tag "a") (children_of p)) as [|a' others]; [discriminate|].
  cbn. done.
Qed.

Section Properties.

Variable fromstring : string -> option node.
Variable float_pow : float -> float -> float.

(** ** [assert_status_200] *)

Lemma assert_status_200_ok : assert_status_200 200 = ret tt.
Proof. reflexivity. Qed.

Lemma assert_status_200_raises (status : Z) :
  status ≠ 200%Z ->
  assert_status_200 status =
  raise (CouldNotFetchInformation
           ("Excpected status_code = 200, got " +:+ pretty status)).
Proof.
  intros Hne. unfold assert_status_200.
  rewrite bool_decide_true by done. reflexivity.
Qed.

(** C7: the status check raises [CouldNotFetchInformation] exactly when the
    status is not 200, whatever other status it is; for 200 it returns
    normally, and it performs no effect either way. *)
Theorem assert_status_200_raises_iff_not_200 (status : Z) :
  (status ≠ 200%Z <->
   exists msg, assert_status_200 status = raise (CouldNotFetchInformation msg)) /\
  (status = 200%Z <-> assert_status_200 status = ret tt) /\
  (assert_status_200 status).2 = [].
Proof.
  destruct (decide (status = 200%Z)) as [->|Hne].
  - rewrite assert_status_200_ok. repeat split; try done.
    intros [msg Hmsg]. discriminate Hmsg.
  - rewrite (assert_status_200_raises _ Hne). repeat split; try done.
    intros _. eexists. reflexivity.
Qed.

(** ** [get_writeup_url] *)

Lemma get_writeup_url_200 (http : string -> reply) (url body : string) (tree : node) :
  http url = Response 200 body ->
  fromstring body = Some tree ->
  get_writeup_url fromstring http url =
  (Ok (match chosen_anchor tree with
       | Some a => get a "href"
       | None => Some url
       end), [Get url]).
Proof.
  intros Hget Hparse.
  unfold get_writeup_url, requests_get, parse, chosen_anchor.
  rewrite Hget. cbn. rewrite Hparse. cbn.
  destruct (xpath_description tree) as [|a ?]; [|reflexivity].
  destruct (xpath_original_writeup tree) as [|a ?]; reflexivity.
Qed.

Lemma get_writeup_url_not_200 (http : string -> reply) (url body : string) (status : Z) :
  http url = Response status body ->
  status ≠ 200%Z ->
  get_writeup_url fromstring http url =
  (Err (CouldNotFetchInformation
          ("Excpected status_code = 200, got " +:+ pretty status)), [Get url]).
Proof.
  intros Hget Hne. unfold get_writeup_url, requests_get.
  rewrite Hget. cbn. rewrite (assert_status_200_raises _ Hne). reflexivity.
Qed.

(** One call performs exactly one request, whatever its outcome. *)
Lemma get_writeup_url_trace (http : string -> reply) (url : string) :
  (get_writeup_url fromstring http url).2 = [Get url].
Proof.
  unfold get_writeup_url, requests_get, parse.
  destruct (http url) as [status body|msg]; cbn; [|reflexivity].
  unfold assert_status_200.
  destruct (bool_decide (status ≠ 200%Z)); cbn; [reflexivity|].
  destruct (fromstring body) as [tree|]; cbn; [|reflexivity].
  destruct (xpath_description tree) as [|a ?]; [|reflexivity].
  destruct (xpath_original_writeup tree) as [|a ?]; reflexivity.
Qed.

(** The outcomes of one call, by what the network and the parser answer. *)
Lemma get_writeup_url_cases (http : string -> reply) (url : string) :
  (exists msg, http url = Unreachable msg /\
     (get_writeup_url fromstring http url).1 = Err (RequestException msg)) \/
  (exists status body, http url = Response status body /\ status ≠ 200%Z /\
     (get_writeup_url fromstring http url).1 =
     Err (CouldNotFetchInformation
            ("Excpected status_code = 200, got " +:+ pretty status))) \/
  (exists body, http url = Response 200 body /\ fromstring body = None /\
     (get_writeup_url fromstring http url).1 = Err ParserError) \/
  (exists body tree, http url = Response 200 body /\ fromstring body = Some tree /\
     (get_writeup_url fromstring http url).1 =
     Ok (match chosen_anchor tree with
         | Some a => get a "href"
         | None => Some url
         end)).
Proof.
  destruct (http url) as [status body|msg] eqn:Hget.
  - destruct (decide (status = 200%Z)) as [->|Hne].
    + destruct (fromstring body) as [tree|] eqn:Hparse.
      * do 3 right. exists body, tree.
        rewrite (get_writeup_url_200 _ _ _ _ Hget Hparse). done.
      * right; right; left. exists body. split_and!; try done.
        unfold get_writeup_url, requests_get, parse.
        rewrite Hget. cbn. rewrite Hparse. reflexivity.
    + right; left. exists status, body.
      rewrite (get_writeup_url_not_200 _ _ _ _ Hget Hne). done.
  - left. exists msg. split; [done|].
    unfold get_writeup_url, requests_get. rewrite Hget. reflexivity.
Qed.

(** ** The monad *)

Lemma bind_ret {A B} (a : A) (k : A -> M B) : bind (ret a) k = k a.
Proof. unfold bind, ret. destruct (k a). reflexivity. Qed.

Lemma bind_raise {A B} (e : exn) (k : A -> M B) : bind (raise e) k = raise e.
Proof. reflexivity. Qed.

Lemma index0_head {A} (l : list A) (x : A) : head l = Some x -> index0 l = ret x.
Proof. destruct l; [done|]. cbn. by intros [= ->]. Qed.

Lemma index0_nil {A} : index0 (@nil A) = raise IndexError.
Proof. reflexivity. Qed.

(** ** [extract_info]: the retry loop *)

Lemma retry_loop_cons_transient http rnd c ch l i rest status body :
  http i (BASE_URL +:+ l) = Response status body ->
  status ≠ 200%Z ->
  retry_loop fromstring float_pow http rnd c ch (Some l) (i :: rest) =
  let run := retry_loop fromstring float_pow http rnd c ch (Some l) rest in
  (run.1, failed_attempt float_pow rnd (BASE_URL +:+ l) i ++ run.2).
Proof.
  intros Hget Hne. cbn [retry_loop str_add]. rewrite bind_ret.
  unfold bind at 1.
  rewrite (get_writeup_url_not_200 _ _ _ _ Hget Hne).
  unfold try_except, emit, bind.
  destruct (retry_loop fromstring float_pow http rnd c ch (Some l) rest) as [r t].
  reflexivity.
Qed.

Lemma retry_loop_all_transient http rnd c ch l indices :
  all_transient http (BASE_URL +:+ l) indices ->
  retry_loop fromstring float_pow http rnd c ch (Some l) indices =
  (Err (CouldNotFetchInformation (could_not_fetch_message c ch)),
   flat_map (failed_attempt float_pow rnd (BASE_URL +:+ l)) indices).
Proof.
  induction indices as [|i rest IH]; intros Hall; [reflexivity|].
  destruct (Hall i) as (status & body & Hget & Hne); [left|].
  rewrite (retry_loop_cons_transient _ _ _ _ _ _ _ _ _ Hget Hne).
  rewrite IH; [reflexivity|].
  intros j Hj. apply Hall. by right.
Qed.

(** Each iteration performs one request at most... *)
Lemma retry_loop_gets_le http rnd c ch link indices :
  count_gets (retry_loop fromstring float_pow http rnd c ch link indices).2 <= length indices.
Proof.
  induction indices as [|i rest IH]; [cbn; lia|].
  cbn [retry_loop]. destruct link as [l|]; cbn [str_add].
  - rewrite bind_ret. unfold bind at 1.
    pose proof (get_writeup_url_trace (http i) (BASE_URL +:+ l)) as Htr.
    destruct (get_writeup_url fromstring (http i) (BASE_URL +:+ l)) as [[url|e] t].
    + cbn in Htr. subst t. cbn. lia.
    + cbn in Htr. subst t. unfold try_except, emit, bind.
      destruct (retry_loop fromstring float_pow http rnd c ch (Some l) rest) as [r t'].
      unfold count_gets in *. destruct e; cbn in *; lia.
  - cbn. lia.
Qed.

(** ** [extract_info] *)

Lemma could_not_fetch_message_15 (c ch : string) :
  could_not_fetch_message c ch =
  "Could not fetch write-up URL (" +:+ c +:+ " - " +:+ ch +:+
  ") information after 15 retries.".
Proof. reflexivity. Qed.

Lemma extract_info_fields http rnd row c ch l :
  row_fields row c ch l ->
  extract_info fromstring float_pow http rnd row =
  retry_loop fromstring float_pow http rnd c ch (Some l) (seq 0 MAX_RETRIES).
Proof.
  intros (Hc & Hch & a & Ha & Hl). unfold extract_info.
  rewrite (index0_head _ _ Hc), bind_ret.
  rewrite (index0_head _ _ Hch), bind_ret.
  rewrite (index0_head _ _ Ha), bind_ret.
  rewrite Hl. reflexivity.
Qed.

Lemma extract_info_gets_le http rnd row :
  count_gets (extract_info fromstring float_pow http rnd row).2 <= MAX_RETRIES.
Proof.
  unfold extract_info.
  destruct (xpath_td_a_text 1 row) as [|c ?]; [cbn; lia|].
  cbn [index0]. rewrite bind_ret.
  destruct (xpath_td_a_text 2 row) as [|ch ?]; [cbn; lia|].
  cbn [index0]. rewrite bind_ret.
  destruct (xpath_td_a 5 row) as [|a ?]; [cbn; lia|].
  cbn [index0]. rewrite bind_ret.
  etrans; [apply retry_loop_gets_le|]. by rewrite length_seq.
Qed.

Lemma count_gets_failed_attempts rnd target indices :
  count_gets (flat_map (failed_attempt float_pow rnd target) indices) = length indices.
Proof.
  unfold count_gets. induction indices as [|i rest IH]; [reflexivity|].
  cbn. by rewrite IH.
Qed.

Lemma count_sleeps_failed_attempts rnd target indices :
  count_sleeps (flat_map (failed_attempt float_pow rnd target) indices) = length indices.
Proof.
  unfold count_sleeps. induction indices as [|i rest IH]; [reflexivity|].
  cbn. by rewrite IH.
Qed.

Lemma elem_of_failed_attempts rnd target indices ev :
  ev ∈ flat_map (failed_attempt float_pow rnd target) indices ->
  ev = Get target \/ exists i, i ∈ indices /\ ev = Sleep (wait_time float_pow i (rnd i)).
Proof.
  induction indices as [|i rest IH]; cbn; [by intros ?%elem_of_nil|].
  intros [->|[->|Hin]%elem_of_cons]%elem_of_cons.
  - by left.
  - right. exists i. split; [left|done].
  - destruct (IH Hin) as [->|(j & Hj & ->)]; [by left|].
    right. exists j. split; [by right|done].
Qed.

(** C2 (amended): when the detail page of a row answers every attempt with
    a status other than 200, [extract_info] makes exactly [MAX_RETRIES] = 15
    requests, all for the detail page, and then raises
    [CouldNotFetchInformation] with a message that carries the two labels of
    the row and the count 15; and whatever the network answers, a row never
    costs more than 15 requests.  A failure of the transport is not retried:
    on the first request it ends the row with the exception of the transport
    after that single request. *)
Theorem extract_info_gives_up_after_MAX_RETRIES http rnd row c ch l :
  row_fields row c ch l ->
  all_transient http (BASE_URL +:+ l) (seq 0 MAX_RETRIES) ->
  let run := extract_info fromstring float_pow http rnd row in
  run.1 = Err (CouldNotFetchInformation
                 ("Could not fetch write-up URL (" +:+ c +:+ " - " +:+ ch +:+
                  ") information after 15 retries.")) /\
  count_gets run.2 = MAX_RETRIES /\
  MAX_RETRIES = 15 /\
  (forall ev, ev ∈ run.2 -> is_get ev = true -> ev = Get (BASE_URL +:+ l)) /\
  (forall http' rnd', count_gets (extract_info fromstring float_pow http' rnd' row).2 <= 15) /\
  (forall http' rnd' msg,
     http' 0 (BASE_URL +:+ l) = Unreachable msg ->
     extract_info fromstring float_pow http' rnd' row =
     (Err (RequestException msg), [Get (BASE_URL +:+ l)])).
Proof.
  intros Hrow Hall run. subst run.
  rewrite (extract_info_fields _ _ _ _ _ _ Hrow).
  rewrite (retry_loop_all_transient _ _ _ _ _ _ Hall).
  cbn [fst snd]. split_and!.
  - by rewrite could_not_fetch_message_15.
  - by rewrite count_gets_failed_attempts, length_seq.
  - reflexivity.
  - intros ev [->|(i & _ & ->)]%elem_of_failed_attempts; [done|].
    cbn. discriminate.
  - intros http' rnd'. apply extract_info_gets_le.
  - intros http' rnd' msg Hdown.
    rewrite (extract_info_fields _ _ _ _ _ _ Hrow).
    change (seq 0 MAX_RETRIES) with (0 :: seq 1 14).
    cbn [retry_loop str_add]. rewrite bind_ret.
    unfold bind at 1, get_writeup_url, requests_get. rewrite Hdown. reflexivity.
Qed.


(** C8: a row in which the text of the anchor of column 1, the text of the
    anchor of column 2 or the anchor of column 5 is missing makes
    [extract_info] raise [IndexError], which is not the exception the retry
    loop catches, before any request or sleep: no record is produced and
    nothing is retried. *)
Theorem extract_info_missing_structure_is_hard_error http rnd row :
  xpath_td_a_text 1 row = [] \/ xpath_td_a_text 2 row = [] \/ xpath_td_a 5 row = [] ->
  extract_info fromstring float_pow http rnd row = (Err IndexError, []) /\
  (forall msg, IndexError ≠ CouldNotFetchInformation msg) /\
  count_gets (extract_info fromstring float_pow http rnd row).2 = 0 /\
  count_sleeps (extract_info fromstring float_pow http rnd row).2 = 0.
Proof.
  intros Hmissing.
  assert (extract_info fromstring float_pow http rnd row = (Err IndexError, [])) as ->.
  { unfold extract_info.
    destruct (xpath_td_a_text 1 row) as [|c ?]; [reflexivity|].
    cbn [index0]. rewrite bind_ret.
    destruct (xpath_td_a_text 2 row) as [|ch ?]; [reflexivity|].
    cbn [index0]. rewrite bind_ret.
    destruct (xpath_td_a 5 row) as [|a ?]; [reflexivity|].
    destruct Hmissing as [?|[?|?]]; discriminate. }
  done.
Qed.

(** An anchor of column 5 without [href] makes [BASE_URL + link] raise
    [TypeError] in the first iteration, before any request. *)
Lemma extract_info_link_without_href http rnd row c ch a :
  head (xpath_td_a_text 1 row) = Some c ->
  head (xpath_td_a_text 2 row) = Some ch ->
  head (xpath_td_a 5 row) = Some a ->
  get a "href" = None ->
  extract_info fromstring float_pow http rnd row = (Err TypeError, []).
Proof.
  intros Hc Hch Ha Hl. unfold extract_info.
  rewrite (index0_head _ _ Hc), bind_ret.
  rewrite (index0_head _ _ Hch), bind_ret.
  rewrite (index0_head _ _ Ha), bind_ret.
  rewrite Hl. reflexivity.
Qed.

(** *** Successful runs *)

Lemma retry_loop_Ok_inv http rnd c ch lnk indices rec :
  (retry_loop fromstring float_pow http rnd c ch lnk indices).1 = Ok rec ->
  exists l i url,
    lnk = Some l /\ i ∈ indices /\ rec = mkRowInformation c ch url /\
    (get_writeup_url fromstring (http i) (BASE_URL +:+ l)).1 = Ok url.
Proof.
  induction indices as [|i rest IH]; [discriminate|].
  cbn [retry_loop]. destruct lnk as [l|]; cbn [str_add]; [|discriminate].
  rewrite bind_ret. unfold bind at 1.
  destruct (get_writeup_url fromstring (http i) (BASE_URL +:+ l)) as [[url|e] t] eqn:Hurl.
  - cbn. intros [= <-]. exists l, i, url. rewrite Hurl. split_and!; try done. left.
  - unfold try_except, emit, bind.
    destruct (retry_loop fromstring float_pow http rnd c ch (Some l) rest) as [r t'] eqn:Hrest.
    destruct e; try discriminate. cbn. intros ->.
    destruct (IH eq_refl) as (l' & j & url & [= <-] & Hj & -> & Hurl').
    exists l, j, url. split_and!; try done. by right.
Qed.

Lemma extract_info_Ok_inv http rnd row rec :
  (extract_info fromstring float_pow http rnd row).1 = Ok rec ->
  exists l i,
    row_fields row (ctf rec) (challenge rec) l /\ i < MAX_RETRIES /\
    (get_writeup_url fromstring (http i) (BASE_URL +:+ l)).1 = Ok (link rec).
Proof.
  unfold extract_info.
  destruct (xpath_td_a_text 1 row) as [|c cs] eqn:Hc; [discriminate|].
  cbn [index0]. rewrite bind_ret.
  destruct (xpath_td_a_text 2 row) as [|ch chs] eqn:Hch; [discriminate|].
  cbn [index0]. rewrite bind_ret.
  destruct (xpath_td_a 5 row) as [|a others] eqn:Ha; [discriminate|].
  cbn [index0]. rewrite bind_ret.
  intros (l & i & url & Hl & Hi & -> & Hurl)%retry_loop_Ok_inv.
  exists l, i. split_and!; [| |done].
  - unfold row_fields. rewrite Hc, Hch, Ha. cbn. split_and!; try done. by exists a.
  - apply elem_of_seq in Hi. lia.
Qed.

Lemma get_writeup_url_Ok_inv http url res :
  (get_writeup_url fromstring http url).1 = Ok res ->
  exists body tree,
    http url = Response 200 body /\ fromstring body = Some tree /\
    res = match chosen_anchor tree with
          | Some a => get a "href"
          | None => Some url
          end.
Proof.
  intros Hres.
  destruct (get_writeup_url_cases http url)
    as [(msg & _ & H)|[(st & body & _ & _ & H)|[(body & _ & _ & H)|(body & tree & Hget & Hp & H)]]];
    rewrite H in Hres; try discriminate.
  injection Hres as <-. by exists body, tree.
Qed.

Lemma detail_url_nonempty (l : string) : BASE_URL +:+ l ≠ "".
Proof. discriminate. Qed.

(** C4 (amended): the record of a successful resolution comes from a detail
    page answered with status 200.  When the page offers neither a
    description anchor nor an original write-up anchor, the resolved URL is
    the URL of the detail page, a non-empty string.  Otherwise it is the
    [href] attribute of the chosen anchor as it stands, whatever it is. *)
Theorem resolved_url_is_detail_url_or_anchor_href http rnd row rec :
  (extract_info fromstring float_pow http rnd row).1 = Ok rec ->
  exists l i body tree,
    row_fields row (ctf rec) (challenge rec) l /\ i < MAX_RETRIES /\
    http i (BASE_URL +:+ l) = Response 200 body /\ fromstring body = Some tree /\
    match chosen_anchor tree with
    | None => link rec = Some (BASE_URL +:+ l) /\ BASE_URL +:+ l ≠ ""
    | Some a => link rec = get a "href"
    end.
Proof.
  intros (l & i & Hrow & Hi & Hurl)%extract_info_Ok_inv.
  apply get_writeup_url_Ok_inv in Hurl as (body & tree & Hget & Hparse & Hlink).
  exists l, i, body, tree. split_and!; try done.
  destruct (chosen_anchor tree); [done|]. split; [done|]. apply detail_url_nonempty.
Qed.

(** C1 (amended): on a detail page answered with status 200, the resolved
    URL follows the priority order of the program: the [href] of the first
    node of [//div[@id='id_description']/p/a] when there is one, an anchor
    of any paragraph of the description; otherwise the [href] of the first
    node of [//a[text()='Original writeup']] when there is one; otherwise
    the URL that was requested.  When the document has a single description
    container and its first paragraph holds an anchor, the first case
    returns the [href] of the first anchor of that paragraph. *)
Theorem get_writeup_url_priority http url body tree :
  http url = Response 200 body ->
  fromstring body = Some tree ->
  let resolved := (get_writeup_url fromstring http url).1 in
  (forall a others, xpath_description tree = a :: others ->
     resolved = Ok (get a "href")) /\
  (forall a others, xpath_description tree = [] ->
     xpath_original_writeup tree = a :: others ->
     resolved = Ok (get a "href")) /\
  (xpath_description tree = [] -> xpath_original_writeup tree = [] ->
     resolved = Ok (Some url)) /\
  (forall d a, select1 is_description_container tree = [d] ->
     spec_inline_anchor tree = Some a ->
     resolved = Ok (get a "href")).
Proof.
  intros Hget Hparse resolved. subst resolved.
  rewrite (get_writeup_url_200 _ _ _ _ Hget Hparse). unfold chosen_anchor. cbn [fst].
  split_and!.
  - by intros a others ->.
  - by intros a others -> ->.
  - by intros -> ->.
  - intros d a Hone Hspec.
    pose proof (xpath_description_first_paragraph _ _ _ Hone Hspec) as Hhead.
    destruct (xpath_description tree) as [|a' others]; [discriminate|].
    by injection Hhead as ->.
Qed.

End Properties.

(** ** The worker pool *)

Section Pool.

Context {A B : Type}.
Variable g : A -> result B.

Lemma chunksize_pos (n : nat) : 0 < n -> 0 < chunksize n.
Proof.
  intros Hn. unfold chunksize.
  change (PARALLEL_REQ * 4) with 28.
  destruct (Nat.eqb_spec (n mod 28) 0) as [Hmod|_]; [|lia].
  pose proof (Nat.div_mod_eq n 28). lia.
Qed.

Lemma concat_get_tasks (fuel size : nat) (l : list A) :
  (l ≠ [] -> 0 < size) -> length l <= fuel ->
  concat (get_tasks fuel size l) = l.
Proof.
  revert l. induction fuel as [|fuel IH]; intros l Hsize Hfuel.
  - destruct l; [reflexivity|cbn in Hfuel; lia].
  - destruct l as [|x l]; [reflexivity|].
    cbn [get_tasks concat]. rewrite IH.
    + apply take_drop.
    + intros _. by apply Hsize.
    + rewrite length_drop. cbn in *. specialize (Hsize ltac:(done)). lia.
Qed.

Lemma mapstar_Ok_inv (chunk : list A) (bs : list B) :
  mapstar g chunk = Ok bs -> Forall2 (fun x b => g x = Ok b) chunk bs.
Proof.
  revert bs. induction chunk as [|x chunk IH]; intros bs; cbn.
  - intros [= <-]. constructor.
  - destruct (g x) as [b|e] eqn:Hx; [|discriminate].
    destruct (mapstar g chunk) as [bs'|e]; [|discriminate].
    intros [= <-]. constructor; [done|]. by apply IH.
Qed.

Lemma mapstar_Err_inv (chunk : list A) (e : exn) :
  mapstar g chunk = Err e -> exists x, x ∈ chunk /\ g x = Err e.
Proof.
  induction chunk as [|x chunk IH]; cbn; [discriminate|].
  destruct (g x) as [b|e'] eqn:Hx.
  - destruct (mapstar g chunk) as [bs'|e']; [discriminate|].
    intros [= ->]. destruct (IH eq_refl) as (y & Hy & Hgy).
    exists y. split; [by right|done].
  - intros [= ->]. exists x. split; [left|done].
Qed.

Lemma failure_at_Some (outs : list (result (list B))) (j : nat) (e : exn) :
  failure_at outs j = Some e <-> outs !! j = Some (Err e).
Proof.
  unfold failure_at. destruct (outs !! j) as [[bs|e']|]; split; try done.
  - by intros [= ->].
  - by intros [= ->].
Qed.

Lemma no_failure_values (outs : list (result (list B))) :
  (forall j, j < length outs -> failure_at outs j = None) ->
  List.map Ok (omap value_of outs) = outs.
Proof.
  induction outs as [|o outs IH]; intros Hnone; [reflexivity|].
  destruct o as [bs|e].
  - cbn. f_equal. apply IH. intros j Hj. apply (Hnone (S j)). cbn. lia.
  - specialize (Hnone 0 ltac:(cbn; lia)). discriminate Hnone.
Qed.

Lemma mapstar_tasks_Ok (tasks : list (list A)) (bss : list (list B)) :
  List.map (mapstar g) tasks = List.map Ok bss ->
  Forall2 (fun x b => g x = Ok b) (concat tasks) (concat bss).
Proof.
  revert bss. induction tasks as [|task tasks IH]; intros [|bs bss]; cbn;
    try discriminate.
  - constructor.
  - intros [= Htask Htasks]. apply Forall2_app; [by apply mapstar_Ok_inv|by apply IH].
Qed.

End Pool.

Section PoolMap.

Context {A B : Type}.
Variables (order : list nat) (f : nat -> A -> result B) (iterable : list A).

Lemma pool_map_tasks :
  concat (get_tasks (length iterable) (chunksize (length iterable)) (imap pair iterable))
  = imap pair iterable.
Proof.
  apply concat_get_tasks.
  - intros Hne. apply chunksize_pos. destruct iterable; [done|cbn; lia].
  - by rewrite length_imap.
Qed.

(** An exception that leaves [pool.map] is the exception of one of the
    items. *)
Lemma pool_map_Err_inv (e : exn) :
  pool_map order f iterable = Err e ->
  exists i x, iterable !! i = Some x /\ f i x = Err e.
Proof.
  unfold pool_map.
  set (tasks := get_tasks _ _ _).
  set (outs := List.map _ tasks).
  destruct (head _) as [e'|] eqn:Hhead; [|discriminate].
  intros [= ->].
  apply head_Some_elem_of in Hhead.
  apply list_elem_of_omap in Hhead as (j & _ & Hj).
  apply failure_at_Some in Hj.
  apply list_elem_of_lookup_2, list_elem_of_In, in_map_iff in Hj as (task & Htask & Hin).
  apply mapstar_Err_inv in Htask as ([i x] & Hix & Hf).
  assert ((i, x) ∈ imap pair iterable) as Hmem.
  { rewrite <- pool_map_tasks. apply list_elem_of_In, in_concat.
    exists task. split; [done|]. by apply list_elem_of_In. }
  apply list_elem_of_lookup in Hmem as (k & Hk).
  rewrite list_lookup_imap in Hk.
  destruct (iterable !! k) as [y|] eqn:Hy; [|discriminate].
  injection Hk as <- <-. by exists k, y.
Qed.

(** When [pool.map] returns, it returns one value per item, at the position
    of the item. *)
Lemma pool_map_Ok_inv (bs : list B) :
  pool_map order f iterable = Ok bs ->
  length bs = length iterable /\
  forall i x, iterable !! i = Some x -> exists b, bs !! i = Some b /\ f i x = Ok b.
Proof.
  unfold pool_map.
  set (tasks := get_tasks _ _ _).
  set (outs := List.map _ tasks).
  destruct (head _) as [e'|] eqn:Hhead; [discriminate|].
  intros [= <-].
  apply head_None in Hhead.
  assert (List.map Ok (omap value_of outs) = outs) as Hvalues.
  { apply no_failure_values. intros j Hj.
    destruct (failure_at outs j) as [e|] eqn:Hfail; [|done].
    assert (e ∈ omap (failure_at outs) (order ++ seq 0 (length outs))) as Hin.
    { apply list_elem_of_omap. exists j. split; [|done].
      apply elem_of_app. right. apply elem_of_seq. lia. }
    rewrite Hhead in Hin. by apply elem_of_nil in Hin. }
  symmetry in Hvalues. apply mapstar_tasks_Ok in Hvalues.
  subst tasks. rewrite pool_map_tasks in Hvalues.
  split.
  - apply Forall2_length in Hvalues. by rewrite length_imap in Hvalues.
  - intros i x Hx.
    destruct (Forall2_lookup_l _ _ _ i (i, x) Hvalues) as (b & Hb & Hf).
    { by rewrite list_lookup_imap, Hx. }
    by exists b.
Qed.

End PoolMap.

(** ** [get_all_writetups] and the script *)

Section Orchestrator.

Variable fromstring : string -> option node.
Variable float_pow : float -> float -> float.

Lemma get_all_writetups_index_served e tree :
  index_served fromstring e tree ->
  get_all_writetups fromstring float_pow e =
  match pool_map (completion e) (resolve fromstring float_pow e) (xpath_rows tree) with
  | Ok info =>
      (Ok info,
       [Get INDEX_URL; LogInfo "Fetched the write-ups list.";
        LogInfo "Retrieved the information for each challenge."])
  | Err err => (Err err, [Get INDEX_URL; LogInfo "Fetched the write-ups list."])
  end.
Proof.
  intros (body & Hget & Hparse).
  unfold get_all_writetups, requests_get, parse.
  rewrite Hget. cbn. rewrite Hparse. cbn.
  by destruct (pool_map _ _ _).
Qed.

(** The calling thread requests the index page once and nothing else, and
    it prints nothing. *)
Lemma get_all_writetups_trace e :
  exists logs,
    (get_all_writetups fromstring float_pow e).2 = Get INDEX_URL :: logs /\
    Forall (fun ev => exists msg, ev = LogInfo msg) logs.
Proof.
  unfold get_all_writetups, requests_get, parse.
  destruct (index_http e INDEX_URL) as [status body|msg]; cbn;
    [|exists []; by split].
  unfold assert_status_200.
  destruct (bool_decide (status ≠ 200%Z)); cbn; [exists []; by split|].
  destruct (fromstring body) as [tree|]; cbn; [|exists []; by split].
  destruct (pool_map _ _ _); cbn; eexists; (split; [reflexivity|]);
    repeat constructor; by eexists.
Qed.

Lemma get_all_writetups_one_request e :
  count_gets (get_all_writetups fromstring float_pow e).2 = 1.
Proof.
  destruct (get_all_writetups_trace e) as (logs & -> & Hlogs).
  unfold count_gets. cbn. f_equal.
  induction Hlogs as [|ev logs (msg & ->) _ IH]; [reflexivity|]. cbn. apply IH.
Qed.

(** C3 (amended): when the index page is served, [get_all_writetups]
    performs exactly one request of its own, the one for the index page.  It
    returns a list exactly when the resolution of every extracted row
    succeeds, and the list then holds exactly one record per row, at the
    position of the row: the record carries the text of the row's column-1
    anchor, the text of its column-2 anchor and the URL that
    [get_writeup_url] resolved for the row's detail link. *)
Theorem get_all_writetups_one_record_per_row e tree :
  index_served fromstring e tree ->
  let rows := xpath_rows tree in
  let run := get_all_writetups fromstring float_pow e in
  count_gets run.2 = 1 /\
  (exists logs, run.2 = Get INDEX_URL :: logs /\
     Forall (fun ev => exists msg, ev = LogInfo msg) logs) /\
  ((forall r row, rows !! r = Some row -> exists rec, resolve fromstring float_pow e r row = Ok rec)
   <-> exists info, run.1 = Ok info) /\
  forall info, run.1 = Ok info ->
    length info = length rows /\
    forall r row, rows !! r = Some row ->
      exists rec l i,
        info !! r = Some rec /\
        row_fields row (ctf rec) (challenge rec) l /\
        i < MAX_RETRIES /\
        (get_writeup_url fromstring (detail_http e r i) (BASE_URL +:+ l)).1
        = Ok (link rec).
Proof.
  intros Hindex rows run. subst rows run.
  split; [apply get_all_writetups_one_request|].
  split; [apply get_all_writetups_trace|].
  rewrite (get_all_writetups_index_served _ _ Hindex).
  destruct (pool_map _ _ _) as [info|err] eqn:Hpool; cbn [fst].
  - apply pool_map_Ok_inv in Hpool as [Hlen Hpoint]. split.
    + split; [by exists info|]. intros _ r row Hrow.
      destruct (Hpoint r row Hrow) as (rec & _ & Hres). by exists rec.
    + intros info' [= <-]. split; [done|]. intros r row Hrow.
      destruct (Hpoint r row Hrow) as (rec & Hrec & Hres).
      apply extract_info_Ok_inv in Hres as (l & i & Hfields & Hi & Hurl).
      by exists rec, l, i.
  - apply pool_map_Err_inv in Hpool as (r & row & Hrow & Hres). split.
    + split; [|by intros (info & ?)]. intros Hrows.
      destruct (Hrows r row Hrow) as (rec & Hrec). congruence.
    + discriminate.
Qed.

(** C5 (amended): when the index page is served and the resolution of a row
    ends with the terminal [CouldNotFetchInformation], [pool.map] raises:
    [get_all_writetups] returns no record for any row and ends with the
    exception of a row whose resolution failed, which is the exception of
    that row when it is the only one that failed. *)
Theorem get_all_writetups_aborts_on_row_failure e tree r row msg :
  index_served fromstring e tree ->
  xpath_rows tree !! r = Some row ->
  resolve fromstring float_pow e r row = Err (CouldNotFetchInformation msg) ->
  exists err r' row',
    get_all_writetups fromstring float_pow e =
    (Err err, [Get INDEX_URL; LogInfo "Fetched the write-ups list."]) /\
    xpath_rows tree !! r' = Some row' /\
    resolve fromstring float_pow e r' row' = Err err /\
    ((forall r'' row'', r'' ≠ r -> xpath_rows tree !! r'' = Some row'' ->
        exists rec, resolve fromstring float_pow e r'' row'' = Ok rec) ->
     err = CouldNotFetchInformation msg).
Proof.
  intros Hindex Hrow Hfail.
  rewrite (get_all_writetups_index_served _ _ Hindex).
  destruct (pool_map _ _ _) as [info|err] eqn:Hpool.
  - apply pool_map_Ok_inv in Hpool as [_ Hpoint].
    destruct (Hpoint r row Hrow) as (rec & _ & Hres). congruence.
  - apply pool_map_Err_inv in Hpool as (r' & row' & Hrow' & Hres).
    exists err, r', row'. split_and!; try done.
    intros Hothers. destruct (decide (r' = r)) as [->|Hne].
    + congruence.
    + destruct (Hothers r' row' Hne Hrow') as (rec & Hrec). congruence.
Qed.

(** C10: when [get_all_writetups] raises [CouldNotFetchInformation], the
    script logs the exception, prints the separator line and then evaluates
    the name [info], which the [try] statement never bound: the run ends
    with [NameError] and the result list is never printed. *)
Theorem main_ends_with_NameError_after_fetch_failure e msg :
  (get_all_writetups fromstring float_pow e).1 = Err (CouldNotFetchInformation msg) ->
  main fromstring float_pow e =
  (Err (NameError "info"),
   (get_all_writetups fromstring float_pow e).2 ++
   [LogException "Could not fetch the write-ups." (CouldNotFetchInformation msg);
    Print (str_mul "=" 100)]) /\
  forall info, PPrint info ∉ (main fromstring float_pow e).2.
Proof.
  intros Hraise. unfold main.
  destruct (get_all_writetups_trace e) as (logs & Htrace & Hlogs).
  destruct (get_all_writetups fromstring float_pow e) as [res t]. cbn in Hraise, Htrace.
  subst res t. cbn -[str_mul]. rewrite <- app_assoc. cbn -[str_mul].
  split; [reflexivity|].
  intros info [Hin|Hin]%elem_of_cons; [discriminate|].
  apply elem_of_app in Hin as [Hin|Hin].
  - eapply Forall_forall in Hlogs as (m & Hm); [|exact Hin]. discriminate.
  - apply elem_of_cons in Hin as [?|Hin]; [discriminate|].
    apply elem_of_cons in Hin as [?|Hin]; [discriminate|]. by apply elem_of_nil in Hin.
Qed.

End Orchestrator.

(** * Concrete runs *)

Section Runs.

Import Fixtures.

Lemma row_fields_rowA : row_fields rowA "CTF1" "pwn200" "/writeup/1".
Proof.
  split_and!; [reflexivity..|].
  exists (anchor "/writeup/1" "Read more"). split; reflexivity.
Qed.


Lemma all_transient_unavailable target indices :
  all_transient (fun _ => unavailable) target indices.
Proof. intros i _. exists 503%Z, "". split; [reflexivity|lia]. Qed.

Lemma index_served_site (e : env) :
  index_http e = site -> index_served fromstring e (index_page [rowA; rowB]).
Proof. intros Hsite. exists "INDEX". rewrite Hsite. split; reflexivity. Qed.

Lemma xpath_rows_index_page : xpath_rows (index_page [rowA; rowB]) = [rowA; rowB].
Proof. vm_compute. reflexivity. Qed.

(** The end-to-end example: two rows, the first resolved through the link
    of its description, the second through its original write-up link. *)
Example get_all_writetups_end_to_end :
  (get_all_writetups fromstring float_pow env_ok).1 =
  Ok [mkRowInformation "CTF1" "pwn200" (Some "https://github.com/a/a");
      mkRowInformation "CTF2" "pwn300" (Some "https://blog.example/b")].
Proof. vm_compute. reflexivity. Qed.

(** Witness of C1, on detail page 1. *)
Lemma get_writeup_url_priority_witness :
  serve "DETAIL1" detail_url1 = Response 200 "DETAIL1" /\
  fromstring "DETAIL1" = Some detail1 /\
  (get_writeup_url fromstring (serve "DETAIL1") detail_url1).1 =
  Ok (Some "https://github.com/a/a").
Proof.
  split; [reflexivity|]. split; [reflexivity|].
  pose proof (get_writeup_url_priority fromstring (serve "DETAIL1") detail_url1
                "DETAIL1" detail1 eq_refl eq_refl) as [Hinline _].
  apply (Hinline inline_anchor [] ltac:(vm_compute; reflexivity)).
Defined.

(** Counterexample of C1 as stated: the first paragraph of the description
    holds no anchor, so the rule of the specification gives the original
    write-up link, while the program returns the link of the second
    paragraph. *)
Lemma get_writeup_url_not_first_paragraph_only :
  fromstring "LATE" = Some detail_late /\
  spec_inline_anchor detail_late = None /\
  spec_resolved_url detail_late detail_url1 = Some "https://blog.example/c" /\
  (get_writeup_url fromstring (serve "LATE") detail_url1).1 =
  Ok (Some "https://github.com/c/c") /\
  (get_writeup_url fromstring (serve "LATE") detail_url1).1 ≠
  Ok (spec_resolved_url detail_late detail_url1).
Proof. vm_compute. split_and!; try reflexivity. discriminate. Qed.

(** Counterexample of C2 as stated: every attempt for the detail page of
    row A fails in the transport, a transient fetch failure in the words of
    the specification.  The program makes one request, not 15, and the row
    ends with the exception of the transport, not with
    [CouldNotFetchInformation]. *)
Lemma extract_info_gives_up_at_first_transport_failure :
  row_fields rowA "CTF1" "pwn200" "/writeup/1" /\
  (forall (i : nat) url, unreachable url = Unreachable "timed out") /\
  extract_info fromstring float_pow (fun _ => unreachable) no_jitter rowA =
  (Err (RequestException "timed out"), [Get "https://ctftime.org/writeup/1"]) /\
  count_gets (extract_info fromstring float_pow (fun _ => unreachable) no_jitter rowA).2 = 1 /\
  count_gets (extract_info fromstring float_pow (fun _ => unreachable) no_jitter rowA).2
  ≠ MAX_RETRIES /\
  forall msg, RequestException "timed out" ≠ CouldNotFetchInformation msg.
Proof.
  split; [apply row_fields_rowA|]. split; [done|].
  assert (extract_info fromstring float_pow (fun _ => unreachable) no_jitter rowA =
          (Err (RequestException "timed out"), [Get "https://ctftime.org/writeup/1"]))
    as -> by (vm_compute; reflexivity).
  split_and!; [reflexivity|reflexivity|discriminate|discriminate].
Qed.

(** Witness of C2 (amended): the detail page of row A always answers 503. *)
Lemma extract_info_gives_up_after_MAX_RETRIES_witness :
  row_fields rowA "CTF1" "pwn200" "/writeup/1" /\
  all_transient (fun _ => unavailable) (BASE_URL +:+ "/writeup/1") (seq 0 MAX_RETRIES) /\
  (extract_info fromstring float_pow (fun _ => unavailable) no_jitter rowA).1 =
  Err (CouldNotFetchInformation gave_up_A) /\
  count_gets (extract_info fromstring float_pow (fun _ => unavailable) no_jitter rowA).2 = 15.
Proof.
  split; [apply row_fields_rowA|]. split; [apply all_transient_unavailable|].
  pose proof (extract_info_gives_up_after_MAX_RETRIES fromstring float_pow
                (fun _ => unavailable) no_jitter rowA "CTF1" "pwn200" "/writeup/1"
                row_fields_rowA (all_transient_unavailable _ _))
    as (Hres & Hgets & _).
  split; [exact Hres|exact Hgets].
Defined.


(** Witness of C8: the second column of the row has no anchor. *)
Lemma extract_info_missing_structure_witness :
  xpath_td_a_text 2 row_drifted = [] /\
  extract_info fromstring float_pow (fun _ => site) no_jitter row_drifted = (Err IndexError, []).
Proof.
  split; [reflexivity|].
  apply (extract_info_missing_structure_is_hard_error fromstring float_pow
           (fun _ => site) no_jitter row_drifted).
  right; left. reflexivity.
Defined.

(** Counterexample of C4 as stated: a description anchor with an empty
    [href], and one without [href], give a record whose URL is the empty
    string, respectively [None]. *)
Lemma resolved_url_can_be_empty :
  (extract_info fromstring float_pow (fun _ => serve "EMPTYHREF") no_jitter rowA).1 =
  Ok (mkRowInformation "CTF1" "pwn200" (Some "")) /\
  (extract_info fromstring float_pow (fun _ => serve "NOHREF") no_jitter rowA).1 =
  Ok (mkRowInformation "CTF1" "pwn200" None).
Proof. split; vm_compute; reflexivity. Qed.

(** Witness of C4 (amended), on row A of the end-to-end example. *)
Lemma resolved_url_is_detail_url_or_anchor_href_witness :
  (extract_info fromstring float_pow (fun _ => site) no_jitter rowA).1 =
  Ok (mkRowInformation "CTF1" "pwn200" (Some "https://github.com/a/a")) /\
  exists l i body tree,
    row_fields rowA "CTF1" "pwn200" l /\ i < MAX_RETRIES /\
    site (BASE_URL +:+ l) = Response 200 body /\ fromstring body = Some tree /\
    match chosen_anchor tree with
    | None => Some "https://github.com/a/a" = Some (BASE_URL +:+ l) /\ BASE_URL +:+ l ≠ ""
    | Some a => Some "https://github.com/a/a" = get a "href"
    end.
Proof.
  assert ((extract_info fromstring float_pow (fun _ => site) no_jitter rowA).1 =
          Ok (mkRowInformation "CTF1" "pwn200" (Some "https://github.com/a/a")))
    as Hrun by (vm_compute; reflexivity).
  split; [exact Hrun|].
  exact (resolved_url_is_detail_url_or_anchor_href fromstring float_pow (fun _ => site)
           no_jitter rowA _ Hrun).
Defined.

Lemma resolve_env_ok_rows (r : nat) (row : node) :
  [rowA; rowB] !! r = Some row -> exists rec, resolve fromstring float_pow env_ok r row = Ok rec.
Proof.
  destruct r as [|[|r]]; cbn; intros [= <-].
  - exists (mkRowInformation "CTF1" "pwn200" (Some "https://github.com/a/a")).
    vm_compute. reflexivity.
  - exists (mkRowInformation "CTF2" "pwn300" (Some "https://blog.example/b")).
    vm_compute. reflexivity.
Qed.

(** Counterexample of C3 as stated: the index page yields two rows, the
    detail page of the first one never answers 200, and the crawl returns no
    outcome at all. *)
Lemma get_all_writetups_no_outcome_list :
  index_served fromstring env_row0_down (index_page [rowA; rowB]) /\
  length (xpath_rows (index_page [rowA; rowB])) = 2 /\
  (get_all_writetups fromstring float_pow env_row0_down).1 =
  Err (CouldNotFetchInformation gave_up_A) /\
  forall outcomes, (get_all_writetups fromstring float_pow env_row0_down).1 ≠ Ok outcomes.
Proof.
  split; [by apply index_served_site|]. split; [by rewrite xpath_rows_index_page|].
  assert ((get_all_writetups fromstring float_pow env_row0_down).1 =
          Err (CouldNotFetchInformation gave_up_A)) as -> by (vm_compute; reflexivity).
  split; [reflexivity|discriminate].
Qed.

(** Witness of C3 (amended): the end-to-end example. *)
Lemma get_all_writetups_one_record_per_row_witness :
  index_served fromstring env_ok (index_page [rowA; rowB]) /\
  count_gets (get_all_writetups fromstring float_pow env_ok).2 = 1 /\
  exists info,
    (get_all_writetups fromstring float_pow env_ok).1 = Ok info /\
    length info = length (xpath_rows (index_page [rowA; rowB])).
Proof.
  assert (index_served fromstring env_ok (index_page [rowA; rowB])) as Hindex
    by (by apply index_served_site).
  split; [exact Hindex|].
  destruct (get_all_writetups_one_record_per_row fromstring float_pow env_ok _ Hindex)
    as (Hone & _ & [Hreturns _] & Hrecords).
  split; [exact Hone|].
  destruct Hreturns as (info & Hinfo).
  { rewrite xpath_rows_index_page. apply resolve_env_ok_rows. }
  exists info. split; [exact Hinfo|]. by apply Hrecords.
Defined.

(** Counterexample of C5 as stated: the resolution of row A succeeds, the
    one of row B fails terminally, and the crawl produces no outcome for
    row A either: it ends with the exception of row B. *)
Lemma get_all_writetups_drops_sibling_records :
  resolve fromstring float_pow env_row1_down 0 rowA =
  Ok (mkRowInformation "CTF1" "pwn200" (Some "https://github.com/a/a")) /\
  resolve fromstring float_pow env_row1_down 1 rowB = Err (CouldNotFetchInformation gave_up_B) /\
  get_all_writetups fromstring float_pow env_row1_down =
  (Err (CouldNotFetchInformation gave_up_B),
   [Get INDEX_URL; LogInfo "Fetched the write-ups list."]).
Proof. split_and!; vm_compute; reflexivity. Qed.

(** Witness of C5 (amended): the detail page of row A never answers 200. *)
Lemma get_all_writetups_aborts_on_row_failure_witness :
  index_served fromstring env_row0_down (index_page [rowA; rowB]) /\
  xpath_rows (index_page [rowA; rowB]) !! 0 = Some rowA /\
  resolve fromstring float_pow env_row0_down 0 rowA = Err (CouldNotFetchInformation gave_up_A) /\
  exists err, (get_all_writetups fromstring float_pow env_row0_down).1 = Err err.
Proof.
  assert (index_served fromstring env_row0_down (index_page [rowA; rowB])) as Hindex
    by (by apply index_served_site).
  assert (xpath_rows (index_page [rowA; rowB]) !! 0 = Some rowA) as Hrow
    by (by rewrite xpath_rows_index_page).
  assert (resolve fromstring float_pow env_row0_down 0 rowA =
          Err (CouldNotFetchInformation gave_up_A)) as Hfail
    by (vm_compute; reflexivity).
  split_and!; try done.
  destruct (get_all_writetups_aborts_on_row_failure fromstring float_pow env_row0_down _ 0 rowA
              gave_up_A Hindex Hrow Hfail) as (err & r' & row' & Hrun & _).
  exists err. by rewrite Hrun.
Defined.

(** Witness of C10: the index page is not served. *)
Lemma main_ends_with_NameError_witness :
  (get_all_writetups fromstring float_pow env_index_down).1 =
  Err (CouldNotFetchInformation "Excpected status_code = 200, got 503") /\
  (main fromstring float_pow env_index_down).1 = Err (NameError "info").
Proof.
  assert ((get_all_writetups fromstring float_pow env_index_down).1 =
          Err (CouldNotFetchInformation "Excpected status_code = 200, got 503"))
    as Hraise by (vm_compute; reflexivity).
  split; [exact Hraise|].
  destruct (main_ends_with_NameError_after_fetch_failure fromstring float_pow env_index_down _ Hraise)
    as [-> _].
  reflexivity.
Defined.

(** When several rows fail, the exception that leaves [pool.map] is the one
    of the chunk that completed first. *)
Example get_all_writetups_first_completed_failure :
  (get_all_writetups fromstring float_pow env_details_down).1 =
  Err (CouldNotFetchInformation gave_up_B).
Proof. vm_compute. reflexivity. Qed.

(** The same outcome when a row fails terminally. *)
Example main_ends_with_NameError_row_failure :
  main fromstring float_pow env_row0_down =
  (Err (NameError "info"),
   [Get INDEX_URL; LogInfo "Fetched the write-ups list.";
    LogException "Could not fetch the write-ups." (CouldNotFetchInformation gave_up_A);
    Print (str_mul "=" 100)]).
Proof. vm_compute. reflexivity. Qed.

End Runs.

(** * Further properties of the retry loop *)

Section RetryLoop.

Variable fromstring : string -> option node.
Variable float_pow : float -> float -> float.

Lemma retry_loop_app_transient http rnd c ch l pre rest :
  all_transient http (BASE_URL +:+ l) pre ->
  retry_loop fromstring float_pow http rnd c ch (Some l) (pre ++ rest) =
  let run := retry_loop fromstring float_pow http rnd c ch (Some l) rest in
  (run.1, flat_map (failed_attempt float_pow rnd (BASE_URL +:+ l)) pre ++ run.2).
Proof.
  induction pre as [|i pre IH]; intros Hall.
  - cbn. by destruct (retry_loop _ _ _ _ _ _ _ rest).
  - destruct (Hall i) as (status & body & Hget & Hne); [left|].
    cbn [app]. rewrite (retry_loop_cons_transient _ _ _ _ _ _ _ _ _ _ _ Hget Hne).
    rewrite IH; [|intros j Hj; apply Hall; by right].
    cbn [fst snd flat_map]. by rewrite <- app_assoc.
Qed.

(** An iteration whose request does not end with
    [CouldNotFetchInformation] ends the loop with the outcome of the
    request. *)
Lemma retry_loop_cons_final http rnd c ch l i rest :
  (forall msg, (get_writeup_url fromstring (http i) (BASE_URL +:+ l)).1
               ≠ Err (CouldNotFetchInformation msg)) ->
  retry_loop fromstring float_pow http rnd c ch (Some l) (i :: rest) =
  (match (get_writeup_url fromstring (http i) (BASE_URL +:+ l)).1 with
   | Ok url => Ok (mkRowInformation c ch url)
   | Err e => Err e
   end, [Get (BASE_URL +:+ l)]).
Proof.
  intros Hfinal. cbn [retry_loop str_add]. rewrite bind_ret. unfold bind at 1.
  pose proof (get_writeup_url_trace fromstring (http i) (BASE_URL +:+ l)) as Htr.
  destruct (get_writeup_url fromstring (http i) (BASE_URL +:+ l)) as [[url|e] t].
  - cbn in Htr. subst t. reflexivity.
  - cbn in Htr. subst t. unfold try_except.
    destruct e; try reflexivity. by destruct (Hfinal msg).
Qed.

Lemma seq_split_at (k n : nat) :
  k < n -> seq 0 n = seq 0 k ++ k :: seq (S k) (n - S k).
Proof.
  intros Hk. replace n with (k + S (n - S k)) at 1 by lia.
  by rewrite seq_app.
Qed.

(** The run that meets [k] statuses other than 200 and then an answer that
    does not raise [CouldNotFetchInformation]. *)
Lemma extract_info_final_attempt http rnd row c ch l k :
  row_fields row c ch l ->
  k < MAX_RETRIES ->
  all_transient http (BASE_URL +:+ l) (seq 0 k) ->
  (forall msg, (get_writeup_url fromstring (http k) (BASE_URL +:+ l)).1
               ≠ Err (CouldNotFetchInformation msg)) ->
  extract_info fromstring float_pow http rnd row =
  (match (get_writeup_url fromstring (http k) (BASE_URL +:+ l)).1 with
   | Ok url => Ok (mkRowInformation c ch url)
   | Err e => Err e
   end, retry_trace float_pow rnd (BASE_URL +:+ l) k true).
Proof.
  intros Hrow Hk Hall Hfinal.
  rewrite (extract_info_fields _ _ _ _ _ _ _ _ Hrow), (seq_split_at k MAX_RETRIES Hk).
  rewrite (retry_loop_app_transient _ _ _ _ _ _ _ Hall).
  by rewrite (retry_loop_cons_final _ _ _ _ _ _ _ Hfinal).
Qed.

Lemma count_gets_retry_trace rnd target k requested :
  count_gets (retry_trace float_pow rnd target k requested) =
  k + (if requested then 1 else 0).
Proof.
  unfold retry_trace, count_gets. rewrite List.filter_app, length_app.
  fold (count_gets (flat_map (failed_attempt float_pow rnd target) (seq 0 k))).
  rewrite count_gets_failed_attempts, length_seq. by destruct requested.
Qed.

Lemma count_sleeps_retry_trace rnd target k requested :
  count_sleeps (retry_trace float_pow rnd target k requested) = k.
Proof.
  unfold retry_trace, count_sleeps. rewrite List.filter_app, length_app.
  fold (count_sleeps (flat_map (failed_attempt float_pow rnd target) (seq 0 k))).
  rewrite count_sleeps_failed_attempts, length_seq. destruct requested; cbn; lia.
Qed.

(** Every run of the loop: either every iteration met a status other than
    200, or some first iteration met an answer that does not raise
    [CouldNotFetchInformation] and ended the loop. *)
Lemma retry_loop_run http rnd c ch l indices :
  let target := BASE_URL +:+ l in
  (all_transient http target indices /\
   retry_loop fromstring float_pow http rnd c ch (Some l) indices =
   (Err (CouldNotFetchInformation (could_not_fetch_message c ch)),
    flat_map (failed_attempt float_pow rnd target) indices)) \/
  (exists pre i post,
     indices = pre ++ i :: post /\ all_transient http target pre /\
     (forall msg, (get_writeup_url fromstring (http i) target).1
                  ≠ Err (CouldNotFetchInformation msg)) /\
     retry_loop fromstring float_pow http rnd c ch (Some l) indices =
     (match (get_writeup_url fromstring (http i) target).1 with
      | Ok url => Ok (mkRowInformation c ch url)
      | Err e => Err e
      end, flat_map (failed_attempt float_pow rnd target) pre ++ [Get target])).
Proof.
  intros target. induction indices as [|i rest IH].
  - left. split; [by intros i ?%elem_of_nil|reflexivity].
  - destruct (get_writeup_url_cases fromstring (http i) target)
      as [(msg & _ & Hres)|[(st & body & Hget & Hne & _)|[(body & _ & _ & Hres)|(body & tree & _ & _ & Hres)]]].
    2:{ assert (all_transient http target [i]) as Hi.
        { intros j ->%list_elem_of_singleton. by exists st, body. }
        destruct IH as [[Hall Hrun]|(pre & j & post & -> & Hall & Hfinal & Hrun)].
        - left. split.
          + intros j [->|Hj]%elem_of_cons; [by exists st, body|by apply Hall].
          + change (i :: rest) with ([i] ++ rest).
            rewrite (retry_loop_app_transient _ _ _ _ _ [i] rest Hi), Hrun.
            reflexivity.
        - right. exists (i :: pre), j, post. split_and!; try done.
          + intros k [->|Hk]%elem_of_cons; [by exists st, body|by apply Hall].
          + change (i :: pre ++ j :: post) with ([i] ++ pre ++ j :: post).
            rewrite (retry_loop_app_transient _ _ _ _ _ [i] _ Hi), Hrun.
            reflexivity. }
    all: right; exists [], i, rest.
    all: assert (forall m, (get_writeup_url fromstring (http i) target).1
                           ≠ Err (CouldNotFetchInformation m)) as Hfinal
           by (intros m; rewrite Hres; discriminate).
    all: split_and!; try done; [by intros j ?%elem_of_nil|].
    all: by rewrite (retry_loop_cons_final _ _ _ _ _ _ _ Hfinal).
Qed.

Lemma seq_prefix_inv (n : nat) (pre post : list nat) (i : nat) :
  seq 0 n = pre ++ i :: post ->
  pre = seq 0 (length pre) /\ i = length pre /\ length pre < n.
Proof.
  intros Hsplit.
  assert (length pre < n) as Hlt.
  { apply (f_equal length) in Hsplit.
    rewrite length_seq, length_app in Hsplit. cbn in Hsplit. lia. }
  split_and!; [| |done].
  - apply (f_equal (take (length pre))) in Hsplit.
    rewrite take_app_length, take_seq in Hsplit.
    rewrite Nat.min_l in Hsplit by lia. done.
  - apply (f_equal (fun s => s !! length pre)) in Hsplit.
    rewrite list_lookup_middle in Hsplit by done.
    rewrite lookup_seq_lt in Hsplit by done. by injection Hsplit.
Qed.

(** The lookups that precede the loop. *)
Lemma extract_info_lookups http rnd row :
  extract_info fromstring float_pow http rnd row =
  match head (xpath_td_a_text 1 row), head (xpath_td_a_text 2 row),
        head (xpath_td_a 5 row) with
  | Some c, Some ch, Some a =>
      retry_loop fromstring float_pow http rnd c ch (get a "href") (seq 0 MAX_RETRIES)
  | _, _, _ => (Err IndexError, [])
  end.
Proof.
  unfold extract_info.
  destruct (xpath_td_a_text 1 row) as [|c cs]; [reflexivity|].
  cbn [index0 head]. rewrite bind_ret.
  destruct (xpath_td_a_text 2 row) as [|ch chs]; [reflexivity|].
  cbn [index0 head]. rewrite bind_ret.
  destruct (xpath_td_a 5 row) as [|a others]; [reflexivity|].
  cbn [index0 head]. by rewrite bind_ret.
Qed.

(** Every run of [extract_info]. *)
Lemma extract_info_run http rnd row :
  (exists e, (e = IndexError \/ e = TypeError) /\
     extract_info fromstring float_pow http rnd row = (Err e, [])) \/
  (exists c ch l,
     row_fields row c ch l /\
     let target := BASE_URL +:+ l in
     ((all_transient http target (seq 0 MAX_RETRIES) /\
       extract_info fromstring float_pow http rnd row =
       (Err (CouldNotFetchInformation (could_not_fetch_message c ch)),
        retry_trace float_pow rnd target MAX_RETRIES false)) \/
      (exists k,
         k < MAX_RETRIES /\ all_transient http target (seq 0 k) /\
         (forall msg, (get_writeup_url fromstring (http k) target).1
                      ≠ Err (CouldNotFetchInformation msg)) /\
         extract_info fromstring float_pow http rnd row =
         (match (get_writeup_url fromstring (http k) target).1 with
          | Ok url => Ok (mkRowInformation c ch url)
          | Err e => Err e
          end, retry_trace float_pow rnd target k true)))).
Proof.
  rewrite extract_info_lookups.
  destruct (head (xpath_td_a_text 1 row)) as [c|] eqn:Hc;
    [|left; exists IndexError; split; [by left|done]].
  destruct (head (xpath_td_a_text 2 row)) as [ch|] eqn:Hch;
    [|left; exists IndexError; split; [by left|done]].
  destruct (head (xpath_td_a 5 row)) as [a|] eqn:Ha;
    [|left; exists IndexError; split; [by left|done]].
  destruct (get a "href") as [l|] eqn:Hl;
    [|left; exists TypeError; split; [by right|reflexivity]].
  right. exists c, ch, l.
  assert (row_fields row c ch l) as Hrow by (split_and!; try done; by exists a).
  split; [done|]. intros target.
  destruct (retry_loop_run http rnd c ch l (seq 0 MAX_RETRIES))
    as [[Hall Hrun]|(pre & i & post & Hsplit & Hall & Hfinal & Hrun)].
  - left. split; [done|]. rewrite Hrun. unfold retry_trace. by rewrite app_nil_r.
  - right. apply seq_prefix_inv in Hsplit as (Hpre & -> & Hlt).
    exists (length pre). rewrite Hpre in Hall at 1.
    split_and!; try done. rewrite Hrun. unfold retry_trace. by rewrite <- Hpre.
Qed.

End RetryLoop.

Section RetryProperties.

Variable fromstring : string -> option node.
Variable float_pow : float -> float -> float.

(** X1: the loop stops at the first answer with status 200.  When the
    first [k] requests for the detail page of a row meet a status other
    than 200 and request [k] (with [k] below [MAX_RETRIES]) is answered with
    status 200 and a body that parses, [extract_info] returns the record of
    that page after exactly [k + 1] requests and [k] sleeps, whatever the
    network would have answered afterwards. *)
Theorem extract_info_returns_at_first_200 http rnd row c ch l k body tree :
  row_fields row c ch l ->
  k < MAX_RETRIES ->
  all_transient http (BASE_URL +:+ l) (seq 0 k) ->
  http k (BASE_URL +:+ l) = Response 200 body ->
  fromstring body = Some tree ->
  let run := extract_info fromstring float_pow http rnd row in
  run.1 = Ok (mkRowInformation c ch
                (match chosen_anchor tree with
                 | Some a => get a "href"
                 | None => Some (BASE_URL +:+ l)
                 end)) /\
  run.2 = flat_map (failed_attempt float_pow rnd (BASE_URL +:+ l)) (seq 0 k) ++
          [Get (BASE_URL +:+ l)] /\
  count_gets run.2 = k + 1 /\
  count_sleeps run.2 = k.
Proof.
  intros Hrow Hk Hall Hget Hparse run. subst run.
  pose proof (get_writeup_url_200 fromstring _ _ _ _ Hget Hparse) as Hurl.
  rewrite (extract_info_final_attempt _ _ _ _ _ _ _ _ k Hrow Hk Hall)
    by (intros msg; rewrite Hurl; discriminate).
  rewrite Hurl. cbn [fst snd].
  split_and!; try done.
  - apply count_gets_retry_trace.
  - apply count_sleeps_retry_trace.
Qed.

(** X2: only [CouldNotFetchInformation] is retried.  When, after [k]
    answers with a status other than 200, request [k] fails in the
    transport, or is answered with status 200 and a body the parser
    rejects, [extract_info] ends at once with that exception
    ([RequestException], [ParserError]): it makes no further request and
    does not sleep again. *)
Theorem extract_info_does_not_retry_other_exceptions http rnd row c ch l k err :
  row_fields row c ch l ->
  k < MAX_RETRIES ->
  all_transient http (BASE_URL +:+ l) (seq 0 k) ->
  (exists msg, http k (BASE_URL +:+ l) = Unreachable msg /\
               err = RequestException msg) \/
  (exists body, http k (BASE_URL +:+ l) = Response 200 body /\
                fromstring body = None /\ err = ParserError) ->
  let run := extract_info fromstring float_pow http rnd row in
  run.1 = Err err /\
  run.2 = flat_map (failed_attempt float_pow rnd (BASE_URL +:+ l)) (seq 0 k) ++
          [Get (BASE_URL +:+ l)] /\
  count_gets run.2 = k + 1 /\
  count_sleeps run.2 = k.
Proof.
  intros Hrow Hk Hall Hanswer run. subst run.
  assert ((get_writeup_url fromstring (http k) (BASE_URL +:+ l)).1 = Err err /\
          forall msg, err ≠ CouldNotFetchInformation msg) as [Hurl Hother].
  { destruct (get_writeup_url_cases fromstring (http k) (BASE_URL +:+ l))
      as [(m & Hget & H)|[(st & b & Hget & Hne & H)|[(b & Hget & Hp & H)|(b & t & Hget & Hp & H)]]];
      destruct Hanswer as [(msg & Hk1 & ->)|(body & Hk1 & Hk2 & ->)];
      rewrite Hk1 in Hget; try discriminate; try (injection Hget as <-); try congruence.
    all: rewrite H; split; [congruence|discriminate]. }
  rewrite (extract_info_final_attempt _ _ _ _ _ _ _ _ k Hrow Hk Hall)
    by (intros msg; rewrite Hurl; intros [= ->]; by eapply Hother).
  rewrite Hurl. cbn [fst snd].
  split_and!; try done.
  - apply count_gets_retry_trace.
  - apply count_sleeps_retry_trace.
Qed.

(** X3: a [CouldNotFetchInformation] that leaves [extract_info] is always
    the terminal one.  The messages of [assert_status_200] never leave the
    loop: the exception carries the message built from the two labels of
    the row, all [MAX_RETRIES] requests were answered with a status other
    than 200, and each of them was followed by a sleep. *)
Theorem extract_info_CouldNotFetchInformation_is_terminal http rnd row msg :
  (extract_info fromstring float_pow http rnd row).1 = Err (CouldNotFetchInformation msg) ->
  exists c ch l,
    row_fields row c ch l /\
    msg = "Could not fetch write-up URL (" +:+ c +:+ " - " +:+ ch +:+
          ") information after 15 retries." /\
    all_transient http (BASE_URL +:+ l) (seq 0 MAX_RETRIES) /\
    count_gets (extract_info fromstring float_pow http rnd row).2 = MAX_RETRIES /\
    count_sleeps (extract_info fromstring float_pow http rnd row).2 = MAX_RETRIES.
Proof.
  intros Hraise.
  destruct (extract_info_run fromstring float_pow http rnd row)
    as [(e & [->| ->] & Hrun)|(c & ch & l & Hrow & [[Hall Hrun]|(k & Hk & Hall & Hfinal & Hrun)])];
    rewrite Hrun in Hraise |- *; cbn [fst snd] in *; try discriminate.
  - injection Hraise as <-. exists c, ch, l.
    by rewrite count_gets_retry_trace, count_sleeps_retry_trace, Nat.add_0_r.
  - destruct (get_writeup_url fromstring (http k) (BASE_URL +:+ l)).1 as [url|e];
      [discriminate|]. injection Hraise as ->. by destruct (Hfinal msg).
Qed.

(** X4: every trace of [extract_info] is a number of iterations "request,
    then sleep", followed by at most one request, all for the same URL.
    Hence a run sleeps at most as often as it requests, requests at most
    once more than it sleeps and at most [MAX_RETRIES] times, and a run that
    returns a record made exactly one request more than it slept. *)
Theorem extract_info_trace_shape http rnd row :
  let run := extract_info fromstring float_pow http rnd row in
  (exists k requested target,
     run.2 = flat_map (failed_attempt float_pow rnd target) (seq 0 k) ++
             (if requested : bool then [Get target] else []) /\
     k + (if requested then 1 else 0) <= MAX_RETRIES) /\
  count_sleeps run.2 <= count_gets run.2 <= count_sleeps run.2 + 1 /\
  count_gets run.2 <= MAX_RETRIES /\
  (forall rec, run.1 = Ok rec -> count_gets run.2 = count_sleeps run.2 + 1) /\
  (forall ev, ev ∈ run.2 -> is_get ev = true ->
     exists a l, head (xpath_td_a 5 row) = Some a /\ get a "href" = Some l /\
                 ev = Get (BASE_URL +:+ l)).
Proof.
  intros run. subst run.
  assert (forall rnd' target k requested ev,
            ev ∈ retry_trace float_pow rnd' target k requested -> is_get ev = true ->
            ev = Get target) as Hgets.
  { intros rnd' target k requested ev Hev Hget.
    apply elem_of_app in Hev as [Hev|Hev].
    - apply elem_of_failed_attempts in Hev as [->|(i & _ & ->)]; [done|discriminate].
    - destruct requested; [|by apply elem_of_nil in Hev].
      by apply list_elem_of_singleton in Hev. }
  destruct (extract_info_run fromstring float_pow http rnd row)
    as [(e & He & Hrun)|(c & ch & l & Hrow & [[Hall Hrun]|(k & Hk & Hall & Hfinal & Hrun)])];
    rewrite Hrun; cbn [fst snd].
  - split_and!; try (cbn; lia); try discriminate.
    + exists 0, false, "". split; [reflexivity|cbn; lia].
    + intros ev Hev. by apply elem_of_nil in Hev.
  - rewrite count_gets_retry_trace, count_sleeps_retry_trace.
    split_and!; try lia; try discriminate.
    + exists MAX_RETRIES, false, (BASE_URL +:+ l). split; [reflexivity|lia].
    + intros ev Hev Hget. destruct Hrow as (_ & _ & a & Ha & Hl).
      exists a, l. split_and!; try done. by eapply Hgets.
  - rewrite count_gets_retry_trace, count_sleeps_retry_trace.
    split_and!; try lia.
    + exists k, true, (BASE_URL +:+ l). split; [reflexivity|lia].
    + intros ev Hev Hget. destruct Hrow as (_ & _ & a & Ha & Hl).
      exists a, l. split_and!; try done. by eapply Hgets.
Qed.

Lemma lookup_sleep_failed_attempts rnd target (n i start : nat) :
  i < n ->
  flat_map (failed_attempt float_pow rnd target) (seq start n) !! (2 * i + 1) =
  Some (Sleep (wait_time float_pow (start + i) (rnd (start + i)))).
Proof.
  revert i start. induction n as [|n IH]; intros i start Hi; [lia|].
  destruct i as [|i].
  - cbn. by rewrite Nat.add_0_r.
  - replace (2 * S i + 1) with (S (S (2 * i + 1))) by lia.
    cbn [seq flat_map failed_attempt app lookup list_lookup].
    rewrite IH by lia. by replace (S start + i) with (start + S i) by lia.
Qed.

(** In binary64, adding the largest draw to an index from 1 to 14 gives the
    next index. *)
Lemma float_of_nat_largest_draw (i : nat) :
  1 <= i < MAX_RETRIES ->
  (float_of_nat i + largest_draw)%float = float_of_nat (i + 1).
Proof.
  unfold MAX_RETRIES. intros Hi.
  do 15 (destruct i as [|i]; [first [lia|reflexivity]|]). lia.
Qed.

(** X15: the sum [i + random.random()] is rounded to binary64.  With the
    largest draw, [1 - 2^-53], and an index [i] from 1 to 14 the sum is
    exactly [i + 1]: in a run whose requests all meet a status other than
    200, the sleep that follows request [i] then lasts
    [(2 ** (i + 1)) / 1000], the delay of the next index with the draw 0. *)
Theorem extract_info_delay_reaches_next_index http rnd row c ch l i :
  row_fields row c ch l ->
  all_transient http (BASE_URL +:+ l) (seq 0 MAX_RETRIES) ->
  1 <= i < MAX_RETRIES ->
  rnd i = largest_draw ->
  (0 <=? largest_draw)%float = true /\
  (largest_draw <? 1)%float = true /\
  (float_of_nat i + rnd i)%float = float_of_nat (i + 1) /\
  (extract_info fromstring float_pow http rnd row).2 !! (2 * i + 1) =
  Some (Sleep (float_pow 2 (float_of_nat (i + 1)) / 1000)%float) /\
  wait_time float_pow i (rnd i) = wait_time float_pow (i + 1) 0.
Proof.
  intros Hrow Hall Hi Hdraw.
  pose proof (float_of_nat_largest_draw i Hi) as Hsum.
  rewrite (extract_info_fields _ _ _ _ _ _ _ _ Hrow).
  rewrite (retry_loop_all_transient _ _ _ _ _ _ _ _ Hall). cbn [snd].
  rewrite lookup_sleep_failed_attempts by lia. cbn [Nat.add].
  unfold wait_time. rewrite Hdraw, Hsum.
  split_and!; try reflexivity.
  assert ((float_of_nat (i + 1) + 0)%float = float_of_nat (i + 1)) as ->; [|done].
  unfold MAX_RETRIES in Hi.
  do 15 (destruct i as [|i]; [first [lia|reflexivity]|]). lia.
Qed.

(** X6: a row with fewer than five cells makes [extract_info] raise
    [IndexError] before any request, whatever its cells hold. *)
Theorem extract_info_short_row http rnd row :
  length (child_elements "td" row) < 5 ->
  extract_info fromstring float_pow http rnd row = (Err IndexError, []).
Proof.
  intros Hshort. rewrite extract_info_lookups.
  assert (xpath_td_a 5 row = []) as ->.
  { unfold xpath_td_a. by rewrite lookup_ge_None_2 by lia. }
  cbn [head].
  by destruct (head (xpath_td_a_text 1 row)), (head (xpath_td_a_text 2 row)).
Qed.

End RetryProperties.

(** * Further properties of the crawl and of the script *)

Section Script.

Variable fromstring : string -> option node.
Variable float_pow : float -> float -> float.

Lemma main_of_run (e : env) (res : result (list RowInformation)) (t : trace) :
  get_all_writetups fromstring float_pow e = (res, t) ->
  main fromstring float_pow e =
  match res with
  | Ok info => (Ok tt, t ++ [Print (str_mul "=" 100); PPrint info])
  | Err (CouldNotFetchInformation msg) =>
      (Err (NameError "info"),
       t ++ [LogException "Could not fetch the write-ups."
               (CouldNotFetchInformation msg);
             Print (str_mul "=" 100)])
  | Err other => (Err other, t)
  end.
Proof.
  intros Hrun. unfold main. rewrite Hrun.
  destruct res as [info|[]]; cbn -[str_mul]; try reflexivity.
  by rewrite <- app_assoc.
Qed.

Lemma pool_map_nil {X Y} (order : list nat) (f : nat -> X -> result Y) :
  pool_map order f [] = Ok [].
Proof.
  destruct (pool_map order f []) as [bs|err] eqn:Hpool.
  - apply pool_map_Ok_inv in Hpool as [Hlen _]. by destruct bs.
  - apply pool_map_Err_inv in Hpool as (i & x & Hx & _). by destruct i.
Qed.

Lemma xpath_rows_without_table (tree : node) :
  (forall g, g ∈ descendants_or_self tree -> is_writeups_table g = false) ->
  xpath_rows tree = [].
Proof.
  intros Hnone. destruct (xpath_rows tree) as [|n ns] eqn:Hrows; [done|].
  assert (n ∈ xpath_rows tree) as Hn by (rewrite Hrows; left).
  apply elem_of_select3 in Hn as (g & p & Hg & Htable & _).
  apply Hnone in Hg. unfold is_writeups_table in Hg. congruence.
Qed.

(** X7: the request for the index page is never retried.  When it is
    answered with a status other than 200, [get_all_writetups] raises
    [CouldNotFetchInformation] with the message of [assert_status_200]
    after that single request, before any row is looked at; the script
    then logs the failure, prints the separator and ends with
    [NameError]. *)
Theorem get_all_writetups_index_not_200 e status body :
  index_http e INDEX_URL = Response status body ->
  status ≠ 200%Z ->
  get_all_writetups fromstring float_pow e =
  (Err (CouldNotFetchInformation
          ("Excpected status_code = 200, got " +:+ pretty status)),
   [Get INDEX_URL]) /\
  main fromstring float_pow e =
  (Err (NameError "info"),
   [Get INDEX_URL;
    LogException "Could not fetch the write-ups."
      (CouldNotFetchInformation
         ("Excpected status_code = 200, got " +:+ pretty status));
    Print (str_mul "=" 100)]).
Proof.
  intros Hget Hne.
  assert (get_all_writetups fromstring float_pow e =
          (Err (CouldNotFetchInformation
                  ("Excpected status_code = 200, got " +:+ pretty status)),
           [Get INDEX_URL])) as Hrun.
  { unfold get_all_writetups, requests_get. rewrite Hget. cbn.
    by rewrite (assert_status_200_raises _ Hne). }
  split; [exact Hrun|]. by rewrite (main_of_run _ _ _ Hrun).
Qed.

(** X8: a failure of the transport on the request for the index page, or
    an index body the parser rejects, is not a
    [CouldNotFetchInformation]: [get_all_writetups] raises
    [RequestException], respectively [ParserError], after its single
    request, and the script does not catch it: it ends with that exception
    without logging or printing anything. *)
Theorem get_all_writetups_index_unusable e err :
  (exists msg, index_http e INDEX_URL = Unreachable msg /\
               err = RequestException msg) \/
  (exists body, index_http e INDEX_URL = Response 200 body /\
                fromstring body = None /\ err = ParserError) ->
  get_all_writetups fromstring float_pow e = (Err err, [Get INDEX_URL]) /\
  main fromstring float_pow e = (Err err, [Get INDEX_URL]).
Proof.
  intros Hanswer.
  assert (get_all_writetups fromstring float_pow e = (Err err, [Get INDEX_URL])) as Hrun.
  { unfold get_all_writetups, requests_get, parse.
    destruct Hanswer as [(msg & -> & ->)|(body & -> & Hparse & ->)]; cbn;
      [reflexivity|]. by rewrite Hparse. }
  split; [exact Hrun|]. rewrite (main_of_run _ _ _ Hrun).
  by destruct Hanswer as [(msg & _ & ->)|(body & _ & _ & ->)].
Qed.

(** X9: an index page that is served but holds no table with the id
    [writeups_table] is not an error: [get_all_writetups] returns the empty
    list after its single request, with both log records. *)
Theorem get_all_writetups_without_table e tree :
  index_served fromstring e tree ->
  (forall g, g ∈ descendants_or_self tree -> is_writeups_table g = false) ->
  get_all_writetups fromstring float_pow e =
  (Ok [],
   [Get INDEX_URL; LogInfo "Fetched the write-ups list.";
    LogInfo "Retrieved the information for each challenge."]).
Proof.
  intros Hindex Hnone.
  rewrite (get_all_writetups_index_served _ _ _ _ Hindex).
  by rewrite (xpath_rows_without_table _ Hnone), pool_map_nil.
Qed.

(** X10: when [get_all_writetups] returns a list, the script prints the
    separator line of 100 signs and then the list, and ends normally,
    logging no exception. *)
Theorem main_prints_the_records e info :
  (get_all_writetups fromstring float_pow e).1 = Ok info ->
  main fromstring float_pow e =
  (Ok tt,
   (get_all_writetups fromstring float_pow e).2 ++ [Print (str_mul "=" 100); PPrint info]) /\
  String.length (str_mul "=" 100) = 100 /\
  forall msg err, LogException msg err ∉ (main fromstring float_pow e).2.
Proof.
  intros Hres.
  destruct (get_all_writetups_trace fromstring float_pow e) as (logs & Htrace & Hlogs).
  destruct (get_all_writetups fromstring float_pow e) as [res t] eqn:Hrun.
  cbn [fst snd] in *. subst res t.
  rewrite (main_of_run _ _ _ Hrun). split_and!; [done|reflexivity|].
  intros msg err [Hin|Hin]%elem_of_cons; [discriminate|].
  apply elem_of_app in Hin as [Hin|Hin].
  - eapply Forall_forall in Hlogs as (m & Hm); [|exact Hin]. discriminate.
  - apply elem_of_cons in Hin as [?|Hin]; [discriminate|].
    apply elem_of_cons in Hin as [?|Hin]; [discriminate|]. by apply elem_of_nil in Hin.
Qed.

(** X11: the script only handles [CouldNotFetchInformation].  Any other
    exception that leaves [get_all_writetups] ends the script as it is:
    nothing is logged by the handler and nothing is printed. *)
Theorem main_does_not_catch_other_exceptions e err :
  (get_all_writetups fromstring float_pow e).1 = Err err ->
  (forall msg, err ≠ CouldNotFetchInformation msg) ->
  main fromstring float_pow e = (Err err, (get_all_writetups fromstring float_pow e).2) /\
  (forall s, Print s ∉ (main fromstring float_pow e).2) /\
  (forall msg err', LogException msg err' ∉ (main fromstring float_pow e).2).
Proof.
  intros Hres Hother.
  destruct (get_all_writetups_trace fromstring float_pow e) as (logs & Htrace & Hlogs).
  destruct (get_all_writetups fromstring float_pow e) as [res t] eqn:Hrun.
  cbn [fst snd] in *. subst res t.
  assert (main fromstring float_pow e = (Err err, Get INDEX_URL :: logs)) as ->.
  { rewrite (main_of_run _ _ _ Hrun). destruct err; try done. by destruct (Hother msg). }
  split_and!; [done| |]; cbn [snd].
  - intros s [Hin|Hin]%elem_of_cons; [discriminate|].
    eapply Forall_forall in Hlogs as (m & Hm); [|exact Hin]. discriminate.
  - intros msg err' [Hin|Hin]%elem_of_cons; [discriminate|].
    eapply Forall_forall in Hlogs as (m & Hm); [|exact Hin]. discriminate.
Qed.

(** X12: an exception of any kind in the resolution of one row makes
    [get_all_writetups] raise the exception of a row that failed, after the
    first log record and without the second one; no list is returned. *)
Theorem get_all_writetups_aborts_on_any_row_exception e tree r row err0 :
  index_served fromstring e tree ->
  xpath_rows tree !! r = Some row ->
  resolve fromstring float_pow e r row = Err err0 ->
  exists err r' row',
    get_all_writetups fromstring float_pow e =
    (Err err, [Get INDEX_URL; LogInfo "Fetched the write-ups list."]) /\
    xpath_rows tree !! r' = Some row' /\
    resolve fromstring float_pow e r' row' = Err err.
Proof.
  intros Hindex Hrow Hfail.
  rewrite (get_all_writetups_index_served _ _ _ _ Hindex).
  destruct (pool_map _ _ _) as [info|err] eqn:Hpool.
  - apply pool_map_Ok_inv in Hpool as [_ Hpoint].
    destruct (Hpoint r row Hrow) as (rec & _ & Hres). congruence.
  - apply pool_map_Err_inv in Hpool as (r' & row' & Hrow' & Hres).
    by exists err, r', row'.
Qed.

(** X13: one row without the expected structure ends the whole script.
    When the index page is served, the text of the anchor of column 1 or 2
    or the anchor of column 5 is missing in one row and every other row
    resolves, the script ends with [IndexError] after the first log record:
    the handler does not log, and neither the separator nor any record is
    printed. *)
Theorem main_ends_with_IndexError_on_drifted_row e tree r row :
  index_served fromstring e tree ->
  xpath_rows tree !! r = Some row ->
  xpath_td_a_text 1 row = [] \/ xpath_td_a_text 2 row = [] \/ xpath_td_a 5 row = [] ->
  (forall r' row', r' ≠ r -> xpath_rows tree !! r' = Some row' ->
     exists rec, resolve fromstring float_pow e r' row' = Ok rec) ->
  main fromstring float_pow e =
  (Err IndexError, [Get INDEX_URL; LogInfo "Fetched the write-ups list."]).
Proof.
  intros Hindex Hrow Hmissing Hothers.
  assert (resolve fromstring float_pow e r row = Err IndexError) as Hfail.
  { unfold resolve. rewrite extract_info_lookups.
    destruct Hmissing as [-> | [-> | ->]]; cbn [head];
      by repeat (match goal with |- context [match ?x with _ => _ end] => destruct x end). }
  assert (get_all_writetups fromstring float_pow e =
          (Err IndexError, [Get INDEX_URL; LogInfo "Fetched the write-ups list."]))
    as Hrun.
  { rewrite (get_all_writetups_index_served _ _ _ _ Hindex).
    destruct (pool_map _ _ _) as [info|err] eqn:Hpool.
    - apply pool_map_Ok_inv in Hpool as [_ Hpoint].
      destruct (Hpoint r row Hrow) as (rec & _ & Hres). congruence.
    - apply pool_map_Err_inv in Hpool as (r' & row' & Hrow' & Hres).
      destruct (decide (r' = r)) as [->|Hne]; [congruence|].
      destruct (Hothers r' row' Hne Hrow') as (rec & Hrec). congruence. }
  by rewrite (main_of_run _ _ _ Hrun).
Qed.

End Script.

Section LinkWithoutHref.

Variable fromstring : string -> option node.
Variable float_pow : float -> float -> float.

(** X14: when the anchor of column 5 has no [href] attribute, [link] is
    [None] and [BASE_URL + link] raises [TypeError] in the first iteration:
    [extract_info] ends with it before any request or sleep, and, the
    exception not being the one the loop catches, nothing is retried. *)
Theorem extract_info_link_None_raises_TypeError http rnd row c ch a :
  head (xpath_td_a_text 1 row) = Some c ->
  head (xpath_td_a_text 2 row) = Some ch ->
  head (xpath_td_a 5 row) = Some a ->
  get a "href" = None ->
  extract_info fromstring float_pow http rnd row = (Err TypeError, []) /\
  count_gets (extract_info fromstring float_pow http rnd row).2 = 0 /\
  count_sleeps (extract_info fromstring float_pow http rnd row).2 = 0.
Proof.
  intros Hc Hch Ha Hl.
  assert (extract_info fromstring float_pow http rnd row = (Err TypeError, [])) as ->; [|done].
  rewrite extract_info_lookups, Hc, Hch, Ha, Hl. reflexivity.
Qed.

End LinkWithoutHref.

Section ScenarioRuns.

Import Fixtures Scenarios.

Lemma all_transient_flaky k target :
  all_transient (flaky k) target (seq 0 k).
Proof.
  intros i [_ Hi]%elem_of_seq. exists 503%Z, "". split; [|lia].
  unfold flaky. by destruct (Nat.ltb_spec i k); [|lia].
Qed.

Lemma all_transient_cut_off k target :
  all_transient (cut_off k) target (seq 0 k).
Proof.
  intros i [_ Hi]%elem_of_seq. exists 503%Z, "". split; [|lia].
  unfold cut_off. by destruct (Nat.ltb_spec i k); [|lia].
Qed.

(** Witness of X1: three answers 503, then detail page 1. *)
Lemma extract_info_returns_at_first_200_witness :
  row_fields rowA "CTF1" "pwn200" "/writeup/1" /\
  3 < MAX_RETRIES /\
  all_transient (flaky 3) (BASE_URL +:+ "/writeup/1") (seq 0 3) /\
  flaky 3 3 (BASE_URL +:+ "/writeup/1") = Response 200 "DETAIL1" /\
  Fixtures.fromstring "DETAIL1" = Some detail1 /\
  (extract_info Fixtures.fromstring float_pow (flaky 3) no_jitter rowA).1 =
  Ok (mkRowInformation "CTF1" "pwn200" (Some "https://github.com/a/a")) /\
  count_gets (extract_info Fixtures.fromstring float_pow (flaky 3) no_jitter rowA).2 = 4 /\
  count_sleeps (extract_info Fixtures.fromstring float_pow (flaky 3) no_jitter rowA).2 = 3.
Proof.
  assert (3 < MAX_RETRIES) as Hk by (unfold MAX_RETRIES; lia).
  assert (flaky 3 3 (BASE_URL +:+ "/writeup/1") = Response 200 "DETAIL1")
    as Hget by reflexivity.
  assert (Fixtures.fromstring "DETAIL1" = Some detail1) as Hparse by reflexivity.
  destruct (extract_info_returns_at_first_200 Fixtures.fromstring float_pow (flaky 3) no_jitter
              rowA _ _ _ 3 _ _ row_fields_rowA Hk (all_transient_flaky 3 _) Hget Hparse)
    as (Hres & _ & Hgets & Hsleeps).
  split; [apply row_fields_rowA|]. split; [exact Hk|].
  split; [apply all_transient_flaky|]. split; [exact Hget|].
  split; [exact Hparse|].
  split; [rewrite Hres; vm_compute; reflexivity|].
  split; [exact Hgets|exact Hsleeps].
Defined.

(** Witness of X2: two answers 503, then a timeout. *)
Lemma extract_info_does_not_retry_other_exceptions_witness :
  row_fields rowA "CTF1" "pwn200" "/writeup/1" /\
  2 < MAX_RETRIES /\
  all_transient (cut_off 2) (BASE_URL +:+ "/writeup/1") (seq 0 2) /\
  cut_off 2 2 (BASE_URL +:+ "/writeup/1") = Unreachable "timed out" /\
  (extract_info Fixtures.fromstring float_pow (cut_off 2) no_jitter rowA).1 =
  Err (RequestException "timed out") /\
  count_gets (extract_info Fixtures.fromstring float_pow (cut_off 2) no_jitter rowA).2 = 3 /\
  count_sleeps (extract_info Fixtures.fromstring float_pow (cut_off 2) no_jitter rowA).2 = 2.
Proof.
  assert (2 < MAX_RETRIES) as Hk by (unfold MAX_RETRIES; lia).
  assert (cut_off 2 2 (BASE_URL +:+ "/writeup/1") = Unreachable "timed out")
    as Hget by reflexivity.
  destruct (extract_info_does_not_retry_other_exceptions Fixtures.fromstring float_pow
              (cut_off 2) no_jitter rowA _ _ _ 2 (RequestException "timed out")
              row_fields_rowA Hk (all_transient_cut_off 2 _)
              (or_introl (ex_intro _ "timed out" (conj Hget eq_refl))))
    as (Hres & _ & Hgets & Hsleeps).
  split; [apply row_fields_rowA|]. split; [exact Hk|].
  split; [apply all_transient_cut_off|]. split; [exact Hget|].
  split; [exact Hres|]. split; [exact Hgets|exact Hsleeps].
Defined.

(** Witness of X3: the detail page of row A always answers 503. *)
Lemma extract_info_CouldNotFetchInformation_is_terminal_witness :
  (extract_info Fixtures.fromstring float_pow (fun _ => unavailable) no_jitter rowA).1 =
  Err (CouldNotFetchInformation gave_up_A) /\
  exists c ch l,
    row_fields rowA c ch l /\
    gave_up_A = "Could not fetch write-up URL (" +:+ c +:+ " - " +:+ ch +:+
                ") information after 15 retries." /\
    all_transient (fun _ => unavailable) (BASE_URL +:+ l) (seq 0 MAX_RETRIES) /\
    count_gets (extract_info Fixtures.fromstring float_pow (fun _ => unavailable) no_jitter rowA).2
    = MAX_RETRIES /\
    count_sleeps (extract_info Fixtures.fromstring float_pow (fun _ => unavailable) no_jitter rowA).2
    = MAX_RETRIES.
Proof.
  assert ((extract_info Fixtures.fromstring float_pow (fun _ => unavailable) no_jitter rowA).1 =
          Err (CouldNotFetchInformation gave_up_A)) as Hraise
    by (vm_compute; reflexivity).
  split; [exact Hraise|].
  exact (extract_info_CouldNotFetchInformation_is_terminal Fixtures.fromstring float_pow
           (fun _ => unavailable) no_jitter rowA gave_up_A Hraise).
Defined.

(** Witness of X15: the detail page of row A always answers 503 and every
    draw is the largest one; the sleep after the second request lasts
    [(2 ** 2) / 1000]. *)
Lemma extract_info_delay_reaches_next_index_witness :
  row_fields rowA "CTF1" "pwn200" "/writeup/1" /\
  all_transient (fun _ => unavailable) (BASE_URL +:+ "/writeup/1") (seq 0 MAX_RETRIES) /\
  1 <= 1 < MAX_RETRIES /\
  (float_of_nat 1 + largest_draw)%float = 2%float /\
  (extract_info Fixtures.fromstring float_pow (fun _ => unavailable)
     (fun _ => largest_draw) rowA).2 !! 3 =
  Some (Sleep (float_pow 2 2 / 1000)%float).
Proof.
  assert (1 <= 1 < MAX_RETRIES) as Hi by (unfold MAX_RETRIES; lia).
  split; [apply row_fields_rowA|]. split; [apply all_transient_unavailable|].
  split; [exact Hi|].
  destruct (extract_info_delay_reaches_next_index Fixtures.fromstring float_pow
              (fun _ => unavailable) (fun _ => largest_draw) rowA _ _ _ 1
              row_fields_rowA (all_transient_unavailable _ _) Hi eq_refl)
    as (_ & _ & Hsum & Hsleep & _).
  split; [exact Hsum|exact Hsleep].
Defined.

(** Witness of X6: a row with three cells. *)
Lemma extract_info_short_row_witness :
  length (child_elements "td" row_short) < 5 /\
  extract_info Fixtures.fromstring float_pow (fun _ => site) no_jitter row_short =
  (Err IndexError, []).
Proof.
  assert (length (child_elements "td" row_short) < 5) as Hshort
    by (vm_compute; lia).
  split; [exact Hshort|].
  exact (extract_info_short_row Fixtures.fromstring float_pow (fun _ => site) no_jitter
           row_short Hshort).
Defined.

(** Witness of X7: the index page answers 503. *)
Lemma get_all_writetups_index_not_200_witness :
  index_http env_index_down INDEX_URL = Response 503 "" /\
  503%Z ≠ 200%Z /\
  get_all_writetups Fixtures.fromstring float_pow env_index_down =
  (Err (CouldNotFetchInformation "Excpected status_code = 200, got 503"),
   [Get INDEX_URL]).
Proof.
  assert (index_http env_index_down INDEX_URL = Response 503 "") as Hget by reflexivity.
  assert (503%Z ≠ 200%Z) as Hne by lia.
  split; [exact Hget|]. split; [exact Hne|].
  exact (proj1 (get_all_writetups_index_not_200 Fixtures.fromstring float_pow env_index_down
                  503 "" Hget Hne)).
Defined.

(** Witness of X8: the request for the index page times out. *)
Lemma get_all_writetups_index_unusable_witness :
  index_http env_index_unreachable INDEX_URL = Unreachable "timed out" /\
  main Fixtures.fromstring float_pow env_index_unreachable =
  (Err (RequestException "timed out"), [Get INDEX_URL]).
Proof.
  assert (index_http env_index_unreachable INDEX_URL = Unreachable "timed out")
    as Hget by reflexivity.
  split; [exact Hget|].
  exact (proj2 (get_all_writetups_index_unusable Fixtures.fromstring float_pow
                  env_index_unreachable (RequestException "timed out")
                  (or_introl (ex_intro _ "timed out" (conj Hget eq_refl))))).
Defined.

Lemma page_without_table_has_no_writeups_table (g : node) :
  g ∈ descendants_or_self page_without_table -> is_writeups_table g = false.
Proof.
  intros Hg. apply list_elem_of_In in Hg.
  assert (forallb (fun n => negb (is_writeups_table n))
            (descendants_or_self page_without_table) = true) as Hall
    by (vm_compute; reflexivity).
  rewrite forallb_forall in Hall. specialize (Hall g Hg).
  by destruct (is_writeups_table g).
Qed.

(** Witness of X9: the only table of the index page has another id. *)
Lemma get_all_writetups_without_table_witness :
  index_served fromstring env_no_table page_without_table /\
  (forall g, g ∈ descendants_or_self page_without_table ->
     is_writeups_table g = false) /\
  (get_all_writetups fromstring float_pow env_no_table).1 = Ok [].
Proof.
  assert (index_served fromstring env_no_table page_without_table) as Hindex
    by (exists "NOTABLE"; split; reflexivity).
  split; [exact Hindex|]. split; [exact page_without_table_has_no_writeups_table|].
  by rewrite (get_all_writetups_without_table fromstring float_pow env_no_table _ Hindex
                page_without_table_has_no_writeups_table).
Defined.

(** Witness of X10: the end-to-end example. *)
Lemma main_prints_the_records_witness :
  (get_all_writetups Fixtures.fromstring float_pow env_ok).1 =
  Ok [mkRowInformation "CTF1" "pwn200" (Some "https://github.com/a/a");
      mkRowInformation "CTF2" "pwn300" (Some "https://blog.example/b")] /\
  (main Fixtures.fromstring float_pow env_ok).1 = Ok tt.
Proof.
  assert ((get_all_writetups Fixtures.fromstring float_pow env_ok).1 =
          Ok [mkRowInformation "CTF1" "pwn200" (Some "https://github.com/a/a");
              mkRowInformation "CTF2" "pwn300" (Some "https://blog.example/b")])
    as Hres by (vm_compute; reflexivity).
  split; [exact Hres|].
  by rewrite (proj1 (main_prints_the_records Fixtures.fromstring float_pow env_ok _ Hres)).
Defined.

(** Witness of X11: the request for the index page times out. *)
Lemma main_does_not_catch_other_exceptions_witness :
  (get_all_writetups Fixtures.fromstring float_pow env_index_unreachable).1 =
  Err (RequestException "timed out") /\
  (forall msg, RequestException "timed out" ≠ CouldNotFetchInformation msg) /\
  (main Fixtures.fromstring float_pow env_index_unreachable).1 =
  Err (RequestException "timed out").
Proof.
  assert ((get_all_writetups Fixtures.fromstring float_pow env_index_unreachable).1 =
          Err (RequestException "timed out")) as Hres by reflexivity.
  assert (forall msg, RequestException "timed out" ≠ CouldNotFetchInformation msg)
    as Hother by discriminate.
  split; [exact Hres|]. split; [exact Hother|].
  by rewrite (proj1 (main_does_not_catch_other_exceptions Fixtures.fromstring float_pow
                       env_index_unreachable _ Hres Hother)).
Defined.

Lemma index_served_env_drift :
  index_served fromstring env_drift (index_page [rowA; row_drifted]).
Proof. exists "DRIFT". split; reflexivity. Qed.

Lemma xpath_rows_drift :
  xpath_rows (index_page [rowA; row_drifted]) = [rowA; row_drifted].
Proof. vm_compute. reflexivity. Qed.

(** Witness of X12: the second row raises [IndexError]. *)
Lemma get_all_writetups_aborts_on_any_row_exception_witness :
  index_served fromstring env_drift (index_page [rowA; row_drifted]) /\
  xpath_rows (index_page [rowA; row_drifted]) !! 1 = Some row_drifted /\
  resolve fromstring float_pow env_drift 1 row_drifted = Err IndexError /\
  exists err, (get_all_writetups fromstring float_pow env_drift).1 = Err err.
Proof.
  assert (xpath_rows (index_page [rowA; row_drifted]) !! 1 = Some row_drifted) as Hrow
    by (by rewrite xpath_rows_drift).
  assert (resolve fromstring float_pow env_drift 1 row_drifted = Err IndexError) as Hfail
    by (vm_compute; reflexivity).
  split_and!; [apply index_served_env_drift|exact Hrow|exact Hfail|].
  destruct (get_all_writetups_aborts_on_any_row_exception fromstring float_pow env_drift _ 1
              row_drifted IndexError index_served_env_drift Hrow Hfail)
    as (err & r' & row' & Hrun & _).
  exists err. by rewrite Hrun.
Defined.

(** Witness of X13: the second row has no anchor in its second column, the
    first row resolves. *)
Lemma main_ends_with_IndexError_on_drifted_row_witness :
  index_served fromstring env_drift (index_page [rowA; row_drifted]) /\
  xpath_rows (index_page [rowA; row_drifted]) !! 1 = Some row_drifted /\
  xpath_td_a_text 2 row_drifted = [] /\
  (forall r' row', r' ≠ 1 ->
     xpath_rows (index_page [rowA; row_drifted]) !! r' = Some row' ->
     exists rec, resolve fromstring float_pow env_drift r' row' = Ok rec) /\
  main fromstring float_pow env_drift =
  (Err IndexError, [Get INDEX_URL; LogInfo "Fetched the write-ups list."]).
Proof.
  assert (xpath_rows (index_page [rowA; row_drifted]) !! 1 = Some row_drifted) as Hrow
    by (by rewrite xpath_rows_drift).
  assert (xpath_td_a_text 2 row_drifted = []) as Hmissing by reflexivity.
  assert (forall r' row', r' ≠ 1 ->
            xpath_rows (index_page [rowA; row_drifted]) !! r' = Some row' ->
            exists rec, resolve fromstring float_pow env_drift r' row' = Ok rec) as Hothers.
  { rewrite xpath_rows_drift. intros [|[|r']] row' Hne; cbn; try done.
    intros [= <-].
    exists (mkRowInformation "CTF1" "pwn200" (Some "https://github.com/a/a")).
    vm_compute. reflexivity. }
  split_and!; [apply index_served_env_drift|exact Hrow|exact Hmissing|exact Hothers|].
  exact (main_ends_with_IndexError_on_drifted_row fromstring float_pow env_drift _ 1 row_drifted
           index_served_env_drift Hrow (or_intror (or_introl Hmissing)) Hothers).
Defined.

(** Witness of X14: the anchor of column 5 has no [href]. *)
Lemma extract_info_link_None_raises_TypeError_witness :
  head (xpath_td_a_text 1 row_without_href) = Some "CTF1" /\
  head (xpath_td_a_text 2 row_without_href) = Some "pwn200" /\
  head (xpath_td_a 5 row_without_href) = Some anchor_without_href /\
  get anchor_without_href "href" = None /\
  extract_info Fixtures.fromstring float_pow (fun _ => site) no_jitter row_without_href =
  (Err TypeError, []).
Proof.
  split_and!; [reflexivity..|].
  exact (proj1 (extract_info_link_None_raises_TypeError Fixtures.fromstring float_pow
                  (fun _ => site) no_jitter row_without_href "CTF1" "pwn200"
                  anchor_without_href eq_refl eq_refl eq_refl eq_refl)).
Defined.

End ScenarioRuns.
